(** * Hunter.io Python client: a shallow embedding and its contract

    The development follows the three source modules of [hunter_client]:
    - [exceptions.py]: the error classes and their hierarchy;
    - [models.py]: the response schemas (pydantic models);
    - [client.py]: argument validation, query construction, the single
      HTTP exchange and the classification of its outcome.

    Python values coming out of [response.json()] are modelled by the
    inductive type [json]; exceptions by an error monad; the HTTP session
    by an explicit log of the requests handed to the transport. *)

From stdpp Require Import base option list strings gmap.
From Stdlib Require Import ZArith Lia.

Local Open Scope Z_scope.
Local Open Scope string_scope.
Local Set Warnings "-register-all".

(* ===================================================================== *)
(** * Python values *)
(* ===================================================================== *)

(** What [json.loads] can return: [None], [bool], [int], [float], [str],
    [list] and [dict] with string keys.  A finite float is kept as
    mantissa and binary exponent; only its truth value matters below. *)
Inductive json : Type :=
| JNull
| JBool (b : bool)
| JInt (n : Z)
| JFloat (mantissa exponent : Z)
| JStr (s : string)
| JArr (items : list json)
| JObj (fields : list (string * json)).

(** [d.get(k)] on the association list carrying a dict. *)
Fixpoint dict_get (k : string) (d : list (string * json)) : option json :=
  match d with
  | [] => None
  | (k', v) :: d' => if String.eqb k k' then Some v else dict_get k d'
  end.

(** [needle in hay] for two [str]. *)
Fixpoint str_in (needle hay : string) : bool :=
  String.prefix needle hay
  || match hay with
     | EmptyString => false
     | String _ rest => str_in needle rest
     end.

(** [bool(v)]. *)
Definition truthy (v : json) : bool :=
  match v with
  | JNull => false
  | JBool b => b
  | JInt n => negb (Z.eqb n 0)
  | JFloat m _ => negb (Z.eqb m 0)
  | JStr s => negb (String.eqb s "")
  | JArr l => match l with [] => false | _ => true end
  | JObj d => match d with [] => false | _ => true end
  end.

(** Truth value of an [Optional[str]] argument: [None] and [""] are falsy. *)
Definition truthy_str (a : option string) : bool :=
  match a with
  | None => false
  | Some s => negb (String.eqb s "")
  end.

(** [a and b] on [Optional[str]] values: [a] when falsy, otherwise [b]. *)
Definition py_and (a b : option string) : option string :=
  if truthy_str a then b else a.

Definition isinstance_list (v : json) : bool :=
  match v with JArr _ => true | _ => false end.

(* ===================================================================== *)
(** * exceptions.py *)
(* ===================================================================== *)

(** The classes that can travel through the client.  The first group is
    Python's own, the second belongs to [requests] and [pydantic], the third
    is declared in [exceptions.py]. *)
Inductive exc_class : Type :=
| BaseException | Exception | ValueError | LookupError | KeyError
| IndexError | TypeError | AttributeError | OSError
| RequestException | ConnectionError | Timeout | JSONDecodeError
| ValidationError
| HunterAPIError | HunterAuthError | HunterRateLimitError.

Global Instance exc_class_eq_dec : EqDecision exc_class.
Proof. solve_decision. Defined.

(** The base class written in each [class] statement. *)
Definition base (c : exc_class) : option exc_class :=
  match c with
  | BaseException => None
  | Exception => Some BaseException
  | ValueError | LookupError | TypeError | AttributeError | OSError
  | HunterAPIError => Some Exception
  | KeyError | IndexError => Some LookupError
  | RequestException => Some OSError
  | ConnectionError | Timeout => Some RequestException
  | JSONDecodeError | ValidationError => Some ValueError
  | HunterAuthError | HunterRateLimitError => Some HunterAPIError
  end.

Fixpoint ancestor (fuel : nat) (c parent : exc_class) : bool :=
  bool_decide (c = parent)
  || match fuel with
     | O => false
     | S fuel' =>
         match base c with
         | None => false
         | Some b => ancestor fuel' b parent
         end
     end.

(** [issubclass(c, parent)]; no chain of bases is longer than five. *)
Definition issubclass (c parent : exc_class) : bool := ancestor 5 c parent.

(** A raised exception.  [message] and [status_code] are the attributes set
    by [HunterAPIError.__init__]; for a built-in exception [message] is the
    constructor argument and there is no [status_code] attribute.  The
    wording the interpreter picks for its own [TypeError]s and
    [AttributeError]s is left out ([None]). *)
Record exn : Type := mk_exn {
  exn_class : exc_class;
  message : option json;
  status_code : option Z
}.

(** [HunterAPIError.__init__(self, message, status_code=0)], inherited
    unchanged by both subclasses. *)
Definition HunterAPIError_init (cls : exc_class) (msg : json)
    (code : option Z) : exn :=
  {| exn_class := cls;
     message := Some msg;
     status_code := Some (default 0 code) |}.

(** [ValueError(text)]. *)
Definition ValueError_init (text : string) : exn :=
  {| exn_class := ValueError; message := Some (JStr text);
     status_code := None |}.

(** An exception raised by the interpreter or by a library. *)
Definition builtin_exn (cls : exc_class) : exn :=
  {| exn_class := cls; message := None; status_code := None |}.

Definition isinstance (e : exn) (cls : exc_class) : bool :=
  issubclass (exn_class e) cls.

(** [needle in str(e)], as the tests check messages. *)
Definition message_contains (needle : string) (e : exn) : bool :=
  match message e with
  | Some (JStr s) => str_in needle s
  | _ => false
  end.

(* ===================================================================== *)
(** * The error monad *)
(* ===================================================================== *)

Inductive result (A : Type) : Type :=
| Ok (a : A)
| Raise (e : exn).
Arguments Ok {A} a.
Arguments Raise {A} e.

Global Instance result_ret : MRet result := λ A a, Ok a.
Global Instance result_bind : MBind result := λ A B f m,
  match m with
  | Ok a => f a
  | Raise e => Raise e
  end.

(** [try: body  except (c1, ..., cn): handler]. *)
Definition try_except {A} (body : result A) (classes : list exc_class)
    (handler : exn → result A) : result A :=
  match body with
  | Ok a => Ok a
  | Raise e =>
      if existsb (isinstance e) classes then handler e else Raise e
  end.

(** ** The operators [_extract_error_message] applies to the decoded body *)

(** ["k" in c]: key test on a dict, element test on a list, substring test
    on a str, [TypeError] on everything else. *)
Definition py_contains (k : string) (c : json) : result bool :=
  match c with
  | JObj d => Ok (bool_decide (is_Some (dict_get k d)))
  | JArr l =>
      Ok (existsb
            (λ x, match x with JStr s => String.eqb k s | _ => false end) l)
  | JStr s => Ok (str_in k s)
  | JNull | JBool _ | JInt _ | JFloat _ _ => Raise (builtin_exn TypeError)
  end.

(** [c["k"]] with a str subscript. *)
Definition getitem_str (c : json) (k : string) : result json :=
  match c with
  | JObj d =>
      match dict_get k d with
      | Some v => Ok v
      | None => Raise (builtin_exn KeyError)
      end
  | _ => Raise (builtin_exn TypeError)
  end.

(** [c[0]]. *)
Definition getitem_0 (c : json) : result json :=
  match c with
  | JArr (x :: _) => Ok x
  | JArr [] => Raise (builtin_exn IndexError)
  | JStr (String a _) => Ok (JStr (String a EmptyString))
  | JStr EmptyString => Raise (builtin_exn IndexError)
  | JObj _ => Raise (builtin_exn KeyError)
  | JNull | JBool _ | JInt _ | JFloat _ _ => Raise (builtin_exn TypeError)
  end.

(** [c.get("k", dflt)]: only a dict has the method. *)
Definition py_get (c : json) (k : string) (dflt : json) : result json :=
  match c with
  | JObj d => Ok (default dflt (dict_get k d))
  | _ => Raise (builtin_exn AttributeError)
  end.

(* ===================================================================== *)
(** * models.py *)
(* ===================================================================== *)

(** The models are pydantic [BaseModel]s: a class body lists the fields, the
    annotation of a field fixes how its value is validated, and a field with
    a default may be left out.  A value of the annotated scalar type is
    taken unchanged.  Which other values a scalar field accepts by
    conversion depends on the pydantic release, so the scalar validators are
    a parameter constrained only on values of the right type. *)
Class Scalars : Type := {
  as_str : json → option string;
  as_int : json → option Z;
  as_bool : json → option bool;
  as_str_exact : ∀ s, as_str (JStr s) = Some s;
  as_int_exact : ∀ n, as_int (JInt n) = Some n;
  as_bool_exact : ∀ b, as_bool (JBool b) = Some b
}.

(** The validators that convert nothing. *)
Definition strict_str (v : json) : option string :=
  match v with JStr s => Some s | _ => None end.
Definition strict_int (v : json) : option Z :=
  match v with JInt n => Some n | _ => None end.
Definition strict_bool (v : json) : option bool :=
  match v with JBool b => Some b | _ => None end.

Global Program Instance strict : Scalars :=
  {| as_str := strict_str; as_int := strict_int; as_bool := strict_bool |}.
Solve All Obligations with done.

(** [name: T]: the key must be there and its value must validate. *)
Definition required {A} (conv : json → option A) (k : string)
    (d : list (string * json)) : option A :=
  dict_get k d ≫= conv.

(** [name: Optional[T] = None]: a missing key and [null] both give [None]. *)
Definition optional {A} (conv : json → option A) (k : string)
    (d : list (string * json)) : option (option A) :=
  match dict_get k d with
  | None | Some JNull => Some None
  | Some v => Some <$> conv v
  end.

(** [name: List[T] = Field(default_factory=list)]: a missing key gives the
    empty list, an array is validated item by item. *)
Definition list_of {A} (conv : json → option A) (k : string)
    (d : list (string * json)) : option (list A) :=
  match dict_get k d with
  | None => Some []
  | Some (JArr l) => mapM conv l
  | Some _ => None
  end.

(** A nested model is built from a dict; keys that name no field are
    ignored. *)
Definition model {A} (build : list (string * json) → option A)
    (v : json) : option A :=
  match v with
  | JObj d => build d
  | _ => None
  end.

Module EmailSource.
Record t : Type := mk {
  domain : string;
  uri : string;
  extracted_on : string;
  last_seen_on : string;
  still_on_page : bool
}.
End EmailSource.

Module EmailVerification.
Record t : Type := mk {
  date : option string;
  status : option string
}.
End EmailVerification.

Module Email.
Record t : Type := mk {
  value : string;
  type : string;
  confidence : Z;
  sources : list EmailSource.t;
  first_name : option string;
  last_name : option string;
  position : option string;
  seniority : option string;
  department : option string;
  linkedin : option string;
  twitter : option string;
  phone_number : option string;
  verification : option EmailVerification.t
}.
End Email.

Module DomainSearchData.
Record t : Type := mk {
  domain : string;
  disposable : bool;
  webmail : bool;
  accept_all : bool;
  pattern : option string;
  organization : option string;
  description : option string;
  industry : option string;
  twitter : option string;
  facebook : option string;
  linkedin : option string;
  instagram : option string;
  youtube : option string;
  technologies : list string;
  country : option string;
  state : option string;
  city : option string;
  postal_code : option string;
  street : option string;
  headcount : option string;
  company_type : option string;
  emails : list Email.t;
  linked_domains : list string
}.
End DomainSearchData.

Module MetaParams.
Record t : Type := mk {
  domain : option string;
  company : option string;
  type : option string;
  seniority : option string;
  department : option string;
  first_name : option string;
  last_name : option string;
  full_name : option string;
  email : option string
}.
End MetaParams.

Module Meta.
Record t : Type := mk {
  results : option Z;
  limit : option Z;
  offset : option Z;
  params : option MetaParams.t
}.
End Meta.

Module DomainSearchResponse.
Record t : Type := mk {
  data : DomainSearchData.t;
  meta : Meta.t
}.
End DomainSearchResponse.

Module EmailFinderData.
Record t : Type := mk {
  first_name : string;
  last_name : string;
  email : string;
  score : Z;
  domain : string;
  accept_all : bool;
  position : option string;
  twitter : option string;
  linkedin_url : option string;
  phone_number : option string;
  company : option string;
  sources : list EmailSource.t;
  verification : option EmailVerification.t
}.
End EmailFinderData.

Module EmailFinderResponse.
Record t : Type := mk {
  data : EmailFinderData.t;
  meta : Meta.t
}.
End EmailFinderResponse.

Module EmailVerificationData.
Record t : Type := mk {
  status : string;
  result : string;
  score : Z;
  email : string;
  regexp : bool;
  gibberish : bool;
  disposable : bool;
  webmail : bool;
  mx_records : bool;
  smtp_server : bool;
  smtp_check : bool;
  accept_all : bool;
  block : bool;
  sources : list EmailSource.t
}.
End EmailVerificationData.

Module EmailVerificationResponse.
Record t : Type := mk {
  data : EmailVerificationData.t;
  meta : Meta.t
}.
End EmailVerificationResponse.

Section validators.
Context `{Scalars}.

Definition EmailSource_validate (d : list (string * json))
    : option EmailSource.t :=
  domain ← required as_str "domain" d;
  uri ← required as_str "uri" d;
  extracted_on ← required as_str "extracted_on" d;
  last_seen_on ← required as_str "last_seen_on" d;
  still_on_page ← required as_bool "still_on_page" d;
  Some (EmailSource.mk domain uri extracted_on last_seen_on still_on_page).

Definition EmailVerification_validate (d : list (string * json))
    : option EmailVerification.t :=
  date ← optional as_str "date" d;
  status ← optional as_str "status" d;
  Some (EmailVerification.mk date status).

Definition Email_validate (d : list (string * json)) : option Email.t :=
  value ← required as_str "value" d;
  type ← required as_str "type" d;
  confidence ← required as_int "confidence" d;
  sources ← list_of (model EmailSource_validate) "sources" d;
  first_name ← optional as_str "first_name" d;
  last_name ← optional as_str "last_name" d;
  position ← optional as_str "position" d;
  seniority ← optional as_str "seniority" d;
  department ← optional as_str "department" d;
  linkedin ← optional as_str "linkedin" d;
  twitter ← optional as_str "twitter" d;
  phone_number ← optional as_str "phone_number" d;
  verification ← optional (model EmailVerification_validate) "verification" d;
  Some (Email.mk value type confidence sources first_name last_name
          position seniority department linkedin twitter phone_number
          verification).

Definition DomainSearchData_validate (d : list (string * json))
    : option DomainSearchData.t :=
  domain ← required as_str "domain" d;
  disposable ← required as_bool "disposable" d;
  webmail ← required as_bool "webmail" d;
  accept_all ← required as_bool "accept_all" d;
  pattern ← optional as_str "pattern" d;
  organization ← optional as_str "organization" d;
  description ← optional as_str "description" d;
  industry ← optional as_str "industry" d;
  twitter ← optional as_str "twitter" d;
  facebook ← optional as_str "facebook" d;
  linkedin ← optional as_str "linkedin" d;
  instagram ← optional as_str "instagram" d;
  youtube ← optional as_str "youtube" d;
  technologies ← list_of as_str "technologies" d;
  country ← optional as_str "country" d;
  state ← optional as_str "state" d;
  city ← optional as_str "city" d;
  postal_code ← optional as_str "postal_code" d;
  street ← optional as_str "street" d;
  headcount ← optional as_str "headcount" d;
  company_type ← optional as_str "company_type" d;
  emails ← list_of (model Email_validate) "emails" d;
  linked_domains ← list_of as_str "linked_domains" d;
  Some (DomainSearchData.mk domain disposable webmail accept_all pattern
          organization description industry twitter facebook linkedin
          instagram youtube technologies country state city postal_code
          street headcount company_type emails linked_domains).

Definition MetaParams_validate (d : list (string * json))
    : option MetaParams.t :=
  domain ← optional as_str "domain" d;
  company ← optional as_str "company" d;
  type ← optional as_str "type" d;
  seniority ← optional as_str "seniority" d;
  department ← optional as_str "department" d;
  first_name ← optional as_str "first_name" d;
  last_name ← optional as_str "last_name" d;
  full_name ← optional as_str "full_name" d;
  email ← optional as_str "email" d;
  Some (MetaParams.mk domain company type seniority department first_name
          last_name full_name email).

Definition Meta_validate (d : list (string * json)) : option Meta.t :=
  results ← optional as_int "results" d;
  limit ← optional as_int "limit" d;
  offset ← optional as_int "offset" d;
  params ← optional (model MetaParams_validate) "params" d;
  Some (Meta.mk results limit offset params).

Definition DomainSearchResponse_validate (d : list (string * json))
    : option DomainSearchResponse.t :=
  data ← required (model DomainSearchData_validate) "data" d;
  meta ← required (model Meta_validate) "meta" d;
  Some (DomainSearchResponse.mk data meta).

Definition EmailFinderData_validate (d : list (string * json))
    : option EmailFinderData.t :=
  first_name ← required as_str "first_name" d;
  last_name ← required as_str "last_name" d;
  email ← required as_str "email" d;
  score ← required as_int "score" d;
  domain ← required as_str "domain" d;
  accept_all ← required as_bool "accept_all" d;
  position ← optional as_str "position" d;
  twitter ← optional as_str "twitter" d;
  linkedin_url ← optional as_str "linkedin_url" d;
  phone_number ← optional as_str "phone_number" d;
  company ← optional as_str "company" d;
  sources ← list_of (model EmailSource_validate) "sources" d;
  verification ← optional (model EmailVerification_validate) "verification" d;
  Some (EmailFinderData.mk first_name last_name email score domain
          accept_all position twitter linkedin_url phone_number company
          sources verification).

Definition EmailFinderResponse_validate (d : list (string * json))
    : option EmailFinderResponse.t :=
  data ← required (model EmailFinderData_validate) "data" d;
  meta ← required (model Meta_validate) "meta" d;
  Some (EmailFinderResponse.mk data meta).

Definition EmailVerificationData_validate (d : list (string * json))
    : option EmailVerificationData.t :=
  status ← required as_str "status" d;
  result ← required as_str "result" d;
  score ← required as_int "score" d;
  email ← required as_str "email" d;
  regexp ← required as_bool "regexp" d;
  gibberish ← required as_bool "gibberish" d;
  disposable ← required as_bool "disposable" d;
  webmail ← required as_bool "webmail" d;
  mx_records ← required as_bool "mx_records" d;
  smtp_server ← required as_bool "smtp_server" d;
  smtp_check ← required as_bool "smtp_check" d;
  accept_all ← required as_bool "accept_all" d;
  block ← required as_bool "block" d;
  sources ← list_of (model EmailSource_validate) "sources" d;
  Some (EmailVerificationData.mk status result score email regexp
          gibberish disposable webmail mx_records smtp_server smtp_check
          accept_all block sources).

Definition EmailVerificationResponse_validate (d : list (string * json))
    : option EmailVerificationResponse.t :=
  data ← required (model EmailVerificationData_validate) "data" d;
  meta ← required (model Meta_validate) "meta" d;
  Some (EmailVerificationResponse.mk data meta).

(** A model class called with [response_data] unpacked into keyword
    arguments: unpacking anything but a dict is a [TypeError]; a dict that
    does not validate raises pydantic's [ValidationError]. *)
Definition construct {A} (validate : list (string * json) → option A)
    (response_data : json) : result A :=
  match response_data with
  | JObj d =>
      match validate d with
      | Some r => Ok r
      | None => Raise (builtin_exn ValidationError)
      end
  | _ => Raise (builtin_exn TypeError)
  end.

End validators.

(* ===================================================================== *)
(** * client.py *)
(* ===================================================================== *)

(** What the client reads from a [requests.Response]: the status and the
    outcome of [response.json()], which either decodes the body or raises a
    [ValueError] (requests' [JSONDecodeError]) with a description. *)
Module response.
Record t : Type := mk {
  status_code : Z;
  body : string + json
}.
End response.

Definition response_json (r : response.t) : result json :=
  match response.body r with
  | inl descr =>
      Raise {| exn_class := JSONDecodeError; message := Some (JStr descr);
               status_code := None |}
  | inr v => Ok v
  end.

(** [str(e)] of an exception built from one text. *)
Definition exn_text (e : exn) : string :=
  match message e with
  | Some (JStr s) => s
  | _ => ""
  end.

(** A value of the query mapping: the operations store [str] and [int]. *)
Inductive param : Type :=
| PStr (s : string)
| PInt (n : Z).

(** The keyword arguments of [session.request]. *)
Record request : Type := mk_request {
  method : string;
  url : string;
  params : gmap string param;
  req_timeout : Z
}.

(** What [session.request] does with a request: it raises (the class and
    [str] of the exception) or hands back a response. *)
Inductive outcome : Type :=
| Fails (cls : exc_class) (descr : string)
| Responds (r : response.t).

(** Computations that may raise and that record every request handed to the
    session. *)
Definition M (A : Type) : Type := list request → result A * list request.

Definition M_ret {A} (a : A) : M A := λ log, (Ok a, log).
Definition M_bind {A B} (m : M A) (f : A → M B) : M B := λ log,
  match m log with
  | (Ok a, log') => f a log'
  | (Raise e, log') => (Raise e, log')
  end.
Definition lift {A} (r : result A) : M A := λ log, (r, log).

Declare Scope M_scope.
Delimit Scope M_scope with M.
Notation "'let*' x := m 'in' k" := (M_bind m (λ x, k))
  (at level 10, x name, m at level 100, k at level 200) : M_scope.

Record HunterClient : Type := mk_client {
  api_key : string;
  timeout : Z;
  base_url : string
}.

(** [HunterClient.__init__(api_key, timeout=30)]. *)
Definition HunterClient_init (key : string) (tmo : option Z)
    : result HunterClient :=
  if negb (truthy (JStr key)) then
    Raise (ValueError_init "API key is required")
  else
    Ok {| api_key := key; timeout := default 30 tmo;
          base_url := "https://api.hunter.io/v2/" |}.

(** [urljoin(base, endpoint)] where [base] ends in a slash and [endpoint] is
    a plain relative segment, as at each call site: the segment is appended. *)
Definition urljoin (base endpoint : string) : string := base +:+ endpoint.

(** [if a: request_params[k] = a] *)
Definition set_if_truthy (k : string) (a : option string)
    (m : gmap string param) : gmap string param :=
  match a with
  | Some s => if truthy_str a then <[k := PStr s]> m else m
  | None => m
  end.

(** [if a is not None: request_params[k] = a] *)
Definition set_if_not_None (k : string) (a : option Z)
    (m : gmap string param) : gmap string param :=
  match a with
  | Some n => <[k := PInt n]> m
  | None => m
  end.

Definition _extract_error_message (resp : response.t) : result json :=
  let error_message := JStr "API request failed" in
  try_except
    (error_data ← response_json resp;
     has_errors ← py_contains "errors" error_data;
     if has_errors : bool then
       errors ← getitem_str error_data "errors";
       if truthy errors && isinstance_list errors then
         first ← getitem_0 errors;
         py_get first "details" error_message
       else Ok error_message
     else Ok error_message)
    [ValueError; KeyError]
    (λ _, Ok error_message).

Definition _parse_json_response (resp : response.t) : result json :=
  try_except (response_json resp) [ValueError]
    (λ json_exc,
       Raise (HunterAPIError_init HunterAPIError
                (JStr ("Invalid JSON response: " +:+ exn_text json_exc))
                None)).

Definition _process_response (resp : response.t) : result json :=
  let unauthorized_status_code := 401 in
  let rate_limit_status_code := 429 in
  let bad_request_status_code := 400 in
  if Z.eqb (response.status_code resp) unauthorized_status_code then
    Raise (HunterAPIError_init HunterAuthError (JStr "Invalid API key")
             (Some (response.status_code resp)))
  else if Z.eqb (response.status_code resp) rate_limit_status_code then
    Raise (HunterAPIError_init HunterRateLimitError
             (JStr "Rate limit exceeded")
             (Some (response.status_code resp)))
  else if Z.geb (response.status_code resp) bad_request_status_code then
    error_message ← _extract_error_message resp;
    Raise (HunterAPIError_init HunterAPIError error_message
             (Some (response.status_code resp)))
  else _parse_json_response resp.

Section client.
Context `{Scalars}.

(** The session: what the network answers to each request. *)
Variable session_request : request → outcome.

Definition _execute_request (self : HunterClient) (method url : string)
    (request_params : gmap string param) : M json := λ log,
  let req := {| method := method; url := url; params := request_params;
                req_timeout := timeout self |} in
  match session_request req with
  | Fails cls descr =>
      if issubclass cls RequestException then
        (Raise (HunterAPIError_init HunterAPIError
                  (JStr ("Request failed: " +:+ descr)) None),
         (log ++ [req])%list)
      else
        (Raise {| exn_class := cls; message := Some (JStr descr);
                  status_code := None |},
         (log ++ [req])%list)
  | Responds resp => (_process_response resp, (log ++ [req])%list)
  end.

Definition _make_request (self : HunterClient) (endpoint : string)
    (request_params : option (gmap string param)) (method : string)
    : M json :=
  let url := urljoin (base_url self) endpoint in
  let request_params := default ∅ request_params in
  let request_params := <["api_key" := PStr (api_key self)]> request_params in
  _execute_request self method url request_params.

Definition domain_search (self : HunterClient)
    (domain company : option string) (limit offset : option Z)
    (type_filter seniority department required_field : option string)
    : M DomainSearchResponse.t :=
  if negb (truthy_str domain) && negb (truthy_str company) then
    lift (Raise (ValueError_init "Either domain or company must be provided"))
  else
    let request_params : gmap string param := ∅ in
    let request_params := set_if_truthy "domain" domain request_params in
    let request_params := set_if_truthy "company" company request_params in
    let request_params := set_if_not_None "limit" limit request_params in
    let request_params := set_if_not_None "offset" offset request_params in
    let request_params := set_if_truthy "type" type_filter request_params in
    let request_params := set_if_truthy "seniority" seniority request_params in
    let request_params :=
      set_if_truthy "department" department request_params in
    let request_params :=
      set_if_truthy "required_field" required_field request_params in
    (let* response_data :=
       _make_request self "domain-search" (Some request_params) "GET" in
     lift (construct DomainSearchResponse_validate response_data))%M.

Definition _validate_email_finder_params
    (domain company first_name last_name full_name : option string)
    : result unit :=
  if negb (truthy_str domain) && negb (truthy_str company) then
    Raise (ValueError_init "Either domain or company must be provided")
  else
    let has_first_and_last := py_and first_name last_name in
    if negb (truthy_str has_first_and_last) && negb (truthy_str full_name)
    then
      let error_msg :=
        "Either first_name and last_name, or full_name must be provided" in
      Raise (ValueError_init error_msg)
    else Ok tt.

Definition email_finder (self : HunterClient)
    (domain company first_name last_name full_name : option string)
    (max_duration : option Z) : M EmailFinderResponse.t :=
  (let* _ :=
     lift (_validate_email_finder_params domain company first_name
             last_name full_name) in
   let request_params : gmap string param := ∅ in
   let request_params := set_if_truthy "domain" domain request_params in
   let request_params := set_if_truthy "company" company request_params in
   let request_params := set_if_truthy "first_name" first_name request_params in
   let request_params := set_if_truthy "last_name" last_name request_params in
   let request_params := set_if_truthy "full_name" full_name request_params in
   let request_params :=
     set_if_not_None "max_duration" max_duration request_params in
   let* response_data :=
     _make_request self "email-finder" (Some request_params) "GET" in
   lift (construct EmailFinderResponse_validate response_data))%M.

Definition email_verifier (self : HunterClient) (email : string)
    : M EmailVerificationResponse.t :=
  if negb (truthy (JStr email)) then
    lift (Raise (ValueError_init "Email address is required"))
  else
    let request_params : gmap string param := {[ "email" := PStr email ]} in
    (let* response_data :=
       _make_request self "email-verifier" (Some request_params) "GET" in
     lift (construct EmailVerificationResponse_validate response_data))%M.

End client.

(* ===================================================================== *)
(** * Vocabulary of the contract *)
(* ===================================================================== *)

(** An argument is _present_ when the operation's guard lets it through:
    a string argument when it is truthy, an integer argument when it is not
    [None]. *)
Definition present_str (a : option string) : option param :=
  if truthy_str a then PStr <$> a else None.

Definition present_int (a : option Z) : option param := PInt <$> a.

(** The query described by a table of external names and optional values. *)
Fixpoint query_lookup (k : string) (table : list (string * option param))
    : option param :=
  match table with
  | [] => None
  | (name, v) :: table' =>
      if String.eqb k name then v else query_lookup k table'
  end.

(** The preconditions of the three operations. *)
Definition domain_search_pre (domain company : option string) : bool :=
  truthy_str domain || truthy_str company.

Definition email_finder_pre
    (domain company first_name last_name full_name : option string) : bool :=
  (truthy_str domain || truthy_str company)
  && ((truthy_str first_name && truthy_str last_name)
      || truthy_str full_name).

Definition email_verifier_pre (email : string) : bool :=
  negb (String.eqb email "").

(** The result of [_execute_request] as a function of what the session did. *)
Definition classify (o : outcome) : result json :=
  match o with
  | Fails cls descr =>
      if issubclass cls RequestException then
        Raise (HunterAPIError_init HunterAPIError
                 (JStr ("Request failed: " +:+ descr)) None)
      else
        Raise {| exn_class := cls; message := Some (JStr descr);
                 status_code := None |}
  | Responds resp => _process_response resp
  end.

(** [x] is a raised exception of exactly class [cls] with the given
    [status_code] attribute and a message in which [needle] occurs. *)
Definition raises_with {A} (cls : exc_class) (code : Z) (needle : string)
    (x : result A) : Prop :=
  ∃ e, x = Raise e ∧ exn_class e = cls ∧ status_code e = Some code
       ∧ message_contains needle e = true.

(** [except cls:] catches [x]. *)
Definition caught_by {A} (cls : exc_class) (x : result A) : bool :=
  match x with
  | Ok _ => false
  | Raise e => isinstance e cls
  end.

(** A run of an operation from [log] handed exactly one request to the
    session, and a 401 or 429 answer to it made the run raise the matching
    error. *)
Definition status_classified {A} (session_request : request → outcome)
    (log : list request) (run : result A * list request) : Prop :=
  ∃ req, snd run = (log ++ [req])%list
    ∧ ∀ r, session_request req = Responds r →
        (response.status_code r = 401 →
           raises_with HunterAuthError 401 "Invalid API key" (fst run))
        ∧ (response.status_code r = 429 →
           raises_with HunterRateLimitError 429 "Rate limit exceeded"
             (fst run)).

(** A run handed exactly one request to the session, and a fault that no
    status classifies (the session raised a [RequestException], or the body
    of an answer below 400 did not decode) made the run raise a plain
    [HunterAPIError] around the description of the fault, with
    [status_code] 0. *)
Definition fault_classified {A} (session_request : request → outcome)
    (log : list request) (run : result A * list request) : Prop :=
  ∃ req, snd run = (log ++ [req])%list
    ∧ (∀ cls descr,
         session_request req = Fails cls descr →
         issubclass cls RequestException = true →
         fst run
         = Raise {| exn_class := HunterAPIError;
                    message := Some (JStr ("Request failed: " +:+ descr));
                    status_code := Some 0 |}
         ∧ raises_with HunterAPIError 0 "Request failed" (fst run))
    ∧ (∀ r descr,
         session_request req = Responds r →
         response.status_code r < 400 →
         response.body r = inl descr →
         fst run
         = Raise {| exn_class := HunterAPIError;
                    message :=
                      Some (JStr ("Invalid JSON response: " +:+ descr));
                    status_code := Some 0 |}).

(** A run handed exactly one request to the session: a GET whose query
    mapping is the one [table] describes. *)
Definition sends_query {A} (table : list (string * option param))
    (log : list request) (run : result A * list request) : Prop :=
  ∃ req, snd run = (log ++ [req])%list
    ∧ method req = "GET"
    ∧ ∀ k, params req !! k = query_lookup k table.

(** A run raised a [ValueError] with the given text and handed nothing to
    the session. *)
Definition rejected {A} (text : string) (log : list request)
    (run : result A * list request) : Prop :=
  run = (Raise (ValueError_init text), log).

(** The dict [d] has no key outside [names]. *)
Definition only_keys (names : list string) (d : list (string * json))
    : bool :=
  forallb (λ kv, existsb (String.eqb (fst kv)) names) d.

(** ** Sample inputs *)

Definition sample_client : HunterClient :=
  {| api_key := "test-api-key"; timeout := 30;
     base_url := "https://api.hunter.io/v2/" |}.

Definition answer_with (r : response.t) : request → outcome :=
  λ _, Responds r.

Definition response_401 : response.t :=
  {| response.status_code := 401; response.body := inr (JObj []) |}.

Definition response_400 : response.t :=
  {| response.status_code := 400;
     response.body :=
       inr (JObj [("errors",
                   JArr [JObj [("details",
                                JStr "Invalid domain parameter")]])]) |}.

Definition response_garbled : response.t :=
  {| response.status_code := 200;
     response.body := inl "Expecting value: line 1 column 1 (char 0)" |}.

(** A 502 whose error list holds plain texts instead of objects. *)
Definition response_502 : response.t :=
  {| response.status_code := 502;
     response.body := inr (JObj [("errors", JArr [JStr "Bad Gateway"])]) |}.

Definition connection_refused : request → outcome :=
  λ _, Fails ConnectionError "Network error".

Definition email_out_of_range : list (string * json) :=
  [("value", JStr "test@example.com"); ("type", JStr "personal");
   ("confidence", JInt 150)].

(** ** Vocabulary of the remaining behaviour *)

(** A run handed exactly one request to the session, and an answer below 400
    whose body decodes made the run return what [build] makes of the decoded
    value. *)
Definition body_decides {A} (build : json → result A)
    (session_request : request → outcome) (log : list request)
    (run : result A * list request) : Prop :=
  ∃ req, snd run = (log ++ [req])%list
    ∧ ∀ r v, session_request req = Responds r →
        response.status_code r < 400 →
        response.body r = inr v →
        fst run = build v.

(** A run handed exactly one request to the session, and an exception of the
    session outside the [RequestException] family left the run as it was
    raised. *)
Definition foreign_fault_passes {A} (session_request : request → outcome)
    (log : list request) (run : result A * list request) : Prop :=
  ∃ req, snd run = (log ++ [req])%list
    ∧ ∀ cls descr, session_request req = Fails cls descr →
        issubclass cls RequestException = false →
        fst run
        = Raise {| exn_class := cls; message := Some (JStr descr);
                   status_code := None |}.

(** A run handed exactly one request to the session: it went to the
    endpoint under the base URL, with the given timeout and key. *)
Definition routed_to (endpoint : string) (tmo : Z) (key : string)
    {A} (log : list request) (run : result A * list request) : Prop :=
  ∃ req, snd run = (log ++ [req])%list
    ∧ url req = "https://api.hunter.io/v2/" +:+ endpoint
    ∧ req_timeout req = tmo
    ∧ params req !! "api_key" = Some (PStr key).

(** The classes of the exceptions the client raises by itself. *)
Definition own_classes : list exc_class :=
  [ValueError; HunterAPIError; HunterAuthError; HunterRateLimitError;
   TypeError; AttributeError; ValidationError].

(** A raised exception is of one of the client's own classes, or it is an
    exception of the session that is no [RequestException]. *)
Definition within_envelope {A} (session_request : request → outcome)
    (x : result A) : Prop :=
  ∀ e, x = Raise e →
    (In (exn_class e) own_classes
     ∨ ∃ req descr, session_request req = Fails (exn_class e) descr)
    ∧ issubclass (exn_class e) RequestException = false.

Definition is_object (v : json) : bool :=
  match v with JObj _ => true | _ => false end.

(** The field names of each model, in the order of its class body. *)
Definition EmailSource_fields : list string :=
  ["domain"; "uri"; "extracted_on"; "last_seen_on"; "still_on_page"].

Definition EmailVerification_fields : list string := ["date"; "status"].

Definition Email_required : list string := ["value"; "type"; "confidence"].

Definition Email_optional : list string :=
  ["first_name"; "last_name"; "position"; "seniority"; "department";
   "linkedin"; "twitter"; "phone_number"; "verification"].

Definition Email_fields : list string :=
  (Email_required ++ ["sources"] ++ Email_optional)%list.

Definition DomainSearchData_required : list string :=
  ["domain"; "disposable"; "webmail"; "accept_all"].

Definition DomainSearchData_fields : list string :=
  (DomainSearchData_required
   ++ ["pattern"; "organization"; "description"; "industry"; "twitter";
       "facebook"; "linkedin"; "instagram"; "youtube"; "technologies";
       "country"; "state"; "city"; "postal_code"; "street"; "headcount";
       "company_type"; "emails"; "linked_domains"])%list.

Definition MetaParams_fields : list string :=
  ["domain"; "company"; "type"; "seniority"; "department"; "first_name";
   "last_name"; "full_name"; "email"].

Definition Meta_fields : list string :=
  ["results"; "limit"; "offset"; "params"].

Definition Response_fields : list string := ["data"; "meta"].

Definition EmailFinderData_required : list string :=
  ["first_name"; "last_name"; "email"; "score"; "domain"; "accept_all"].

Definition EmailFinderData_fields : list string :=
  (EmailFinderData_required
   ++ ["position"; "twitter"; "linkedin_url"; "phone_number"; "company";
       "sources"; "verification"])%list.

Definition EmailVerificationData_required : list string :=
  ["status"; "result"; "score"; "email"; "regexp"; "gibberish";
   "disposable"; "webmail"; "mx_records"; "smtp_server"; "smtp_check";
   "accept_all"; "block"].

Definition EmailVerificationData_fields : list string :=
  (EmailVerificationData_required ++ ["sources"])%list.

(** Two dicts hold the same value, or both none, under each name. *)
Definition agree_on (names : list string) (d d' : list (string * json))
    : Prop :=
  ∀ k, In k names → dict_get k d = dict_get k d'.

(** Each name is missing from the dict or bound to [null]. *)
Definition absent_or_null (names : list string) (d : list (string * json))
    : bool :=
  forallb (λ k, match dict_get k d with
                | None | Some JNull => true
                | Some _ => false
                end) names.

(** A decoded body no response model can be built from: [data] or [meta]
    is missing, or is not an object. *)
Definition unusable (d : list (string * json)) : Prop :=
  dict_get "data" d = None
  ∨ dict_get "meta" d = None
  ∨ (∃ x, dict_get "data" d = Some x ∧ is_object x = false)
  ∨ (∃ x, dict_get "meta" d = Some x ∧ is_object x = false).

(** A run handed exactly one request to the session, and an answer below 400
    whose body decodes to something no response can be built from made the
    run raise outside the [HunterAPIError] family: a [TypeError] for a body
    that is no object, pydantic's [ValidationError] for an unusable object. *)
Definition payload_faults {A} (session_request : request → outcome)
    (log : list request) (run : result A * list request) : Prop :=
  ∃ req, snd run = (log ++ [req])%list
    ∧ ∀ r v, session_request req = Responds r →
        response.status_code r < 400 →
        response.body r = inr v →
        (is_object v = false → fst run = Raise (builtin_exn TypeError))
        ∧ (∀ d, v = JObj d → unusable d →
             fst run = Raise (builtin_exn ValidationError)).

(** The plain [HunterAPIError] raised for a status that has no class of
    its own. *)
Definition generic_error (status : Z) (msg : json) : exn :=
  {| exn_class := HunterAPIError; message := Some msg;
     status_code := Some status |}.

(** A run handed exactly one request to the session, and an answer with an
    error status other than 401 and 429 whose body is an object with a list
    of error objects made the run raise the generic error with that status
    and the [details] of the first error, whatever value that is, or the
    fallback text when the first error has no [details]. *)
Definition first_details_reported {A} (session_request : request → outcome)
    (log : list request) (run : result A * list request) : Prop :=
  ∃ req, snd run = (log ++ [req])%list
    ∧ ∀ r d e rest, session_request req = Responds r →
        (400 ≤ response.status_code r)%Z →
        response.status_code r ≠ 401 →
        response.status_code r ≠ 429 →
        response.body r = inr (JObj d) →
        dict_get "errors" d = Some (JArr (JObj e :: rest)) →
        fst run
        = Raise (generic_error (response.status_code r)
                   (default (JStr "API request failed")
                      (dict_get "details" e))).

(** An error body that gives no error list: it does not decode, or it is an
    object whose [errors] entry is missing, is empty or is no list. *)
Definition no_error_list (body : string + json) : Prop :=
  (∃ descr, body = inl descr)
  ∨ ∃ d, body = inr (JObj d)
         ∧ (dict_get "errors" d = None
            ∨ dict_get "errors" d = Some (JArr [])
            ∨ ∃ v, dict_get "errors" d = Some v
                   ∧ isinstance_list v = false).

(** A run handed exactly one request to the session, and an answer with an
    error status other than 401 and 429 whose body gives no error list made
    the run raise the generic error with that status and the fallback
    text. *)
Definition fallback_reported {A} (session_request : request → outcome)
    (log : list request) (run : result A * list request) : Prop :=
  ∃ req, snd run = (log ++ [req])%list
    ∧ ∀ r, session_request req = Responds r →
        (400 ≤ response.status_code r)%Z →
        response.status_code r ≠ 401 →
        response.status_code r ≠ 429 →
        no_error_list (response.body r) →
        fst run
        = Raise (generic_error (response.status_code r)
                   (JStr "API request failed")).

(** What becomes of an error body that decodes to something other than an
    object: a text or an array in which ["errors"] occurs, and anything that
    cannot be searched, ends in a [TypeError]; other texts and arrays give
    the fallback. *)
Definition error_of_non_object {A} (status : Z) (v : json) : result A :=
  match v with
  | JStr s =>
      if str_in "errors" s then Raise (builtin_exn TypeError)
      else Raise (generic_error status (JStr "API request failed"))
  | JArr l =>
      if existsb
           (λ x, match x with
                 | JStr s => String.eqb "errors" s
                 | _ => false
                 end) l
      then Raise (builtin_exn TypeError)
      else Raise (generic_error status (JStr "API request failed"))
  | _ => Raise (builtin_exn TypeError)
  end.

Definition non_object_error_body {A} (session_request : request → outcome)
    (log : list request) (run : result A * list request) : Prop :=
  ∃ req, snd run = (log ++ [req])%list
    ∧ ∀ r v, session_request req = Responds r →
        (400 ≤ response.status_code r)%Z →
        response.status_code r ≠ 401 →
        response.status_code r ≠ 429 →
        response.body r = inr v →
        is_object v = false →
        fst run = error_of_non_object (response.status_code r) v.

(** ** More sample inputs *)

(** The answer of the test for a successful domain search. *)
Definition response_200 : response.t :=
  {| response.status_code := 200;
     response.body :=
       inr (JObj [("data",
                   JObj [("domain", JStr "example.com");
                         ("disposable", JBool false);
                         ("webmail", JBool false);
                         ("accept_all", JBool true);
                         ("emails", JArr []);
                         ("linked_domains", JArr [])]);
                  ("meta",
                   JObj [("results", JInt 0); ("limit", JInt 10);
                         ("offset", JInt 0)])]) |}.

(** A 200 whose body is an array. *)
Definition response_array : response.t :=
  {| response.status_code := 200; response.body := inr (JArr []) |}.

(** A 500 whose body is the JSON text [null]. *)
Definition response_500_null : response.t :=
  {| response.status_code := 500; response.body := inr JNull |}.

(** A 404 whose error carries no [details]. *)
Definition response_404 : response.t :=
  {| response.status_code := 404;
     response.body :=
       inr (JObj [("errors", JArr [JObj [("code", JInt 404)]])]) |}.

Definition interrupted : request → outcome :=
  λ _, Fails BaseException "KeyboardInterrupt".

(** A 503 whose body is a page of a proxy, not JSON. *)
Definition response_503_page : response.t :=
  {| response.status_code := 503;
     response.body := inl "Expecting value: line 1 column 1 (char 0)" |}.

(** The smallest email, and the same with its keys in another order and a
    key the model does not declare. *)
Definition email_minimal : list (string * json) :=
  [("value", JStr "test@example.com"); ("type", JStr "personal");
   ("confidence", JInt 95)].

Definition email_shuffled : list (string * json) :=
  [("confidence", JInt 95); ("accept_all", JBool true);
   ("type", JStr "personal"); ("value", JStr "test@example.com")].

(** Domain data with one email. *)
Definition data_with_one_email : list (string * json) :=
  [("domain", JStr "example.com"); ("disposable", JBool false);
   ("webmail", JBool false); ("accept_all", JBool true);
   ("emails", JArr [JObj email_minimal])].

(** An email as the API sends it, with [null] for what it does not know. *)
Definition email_with_nulls : list (string * json) :=
  [("value", JStr "test@example.com"); ("type", JStr "personal");
   ("confidence", JInt 95); ("first_name", JNull); ("last_name", JNull);
   ("position", JNull); ("verification", JNull)].

(* ===================================================================== *)
(** * Basic facts *)
(* ===================================================================== *)

Lemma str_in_prefix (p s : string) : str_in p (p +:+ s) = true.
Proof.
  assert (Hp : String.prefix p (p +:+ s) = true).
  { induction p as [|a p IH]; simpl.
    - by destruct s.
    - rewrite IH. by destruct (Ascii.ascii_dec a a). }
  destruct (p +:+ s); simpl in *; by rewrite Hp.
Qed.

Lemma truthy_str_Some (s : string) :
  truthy_str (Some s) = truthy (JStr s).
Proof. reflexivity. Qed.

Lemma result_bind_raise {A B} (f : A → result B) (e : exn) :
  (Raise e ≫= f) = Raise e.
Proof. reflexivity. Qed.

Lemma lookup_set_if_truthy_eq (k : string) (a : option string)
    (m : gmap string param) :
  set_if_truthy k a m !! k
  = match present_str a with Some p => Some p | None => m !! k end.
Proof.
  unfold set_if_truthy, present_str.
  destruct a as [s|]; [|done].
  destruct (truthy_str (Some s)); simpl; [|done].
  by rewrite lookup_insert_eq.
Qed.

Lemma lookup_set_if_truthy_ne (k k' : string) (a : option string)
    (m : gmap string param) :
  k ≠ k' → set_if_truthy k a m !! k' = m !! k'.
Proof.
  intros Hne. unfold set_if_truthy.
  destruct a as [s|]; [|done].
  destruct (truthy_str (Some s)); [|done].
  by rewrite lookup_insert_ne.
Qed.

Lemma lookup_set_if_not_None_eq (k : string) (a : option Z)
    (m : gmap string param) :
  set_if_not_None k a m !! k
  = match present_int a with Some p => Some p | None => m !! k end.
Proof.
  unfold set_if_not_None, present_int.
  destruct a as [n|]; [|done]. simpl. by rewrite lookup_insert_eq.
Qed.

Lemma lookup_set_if_not_None_ne (k k' : string) (a : option Z)
    (m : gmap string param) :
  k ≠ k' → set_if_not_None k a m !! k' = m !! k'.
Proof.
  intros Hne. unfold set_if_not_None.
  destruct a as [n|]; [|done]. by rewrite lookup_insert_ne.
Qed.

Ltac skip_other_keys :=
  repeat first
    [ rewrite lookup_insert_ne by done
    | rewrite lookup_set_if_truthy_ne by done
    | rewrite lookup_set_if_not_None_ne by done ].

Ltac read_key :=
  skip_other_keys;
  first
    [ rewrite lookup_insert_eq; reflexivity
    | rewrite lookup_singleton_eq; reflexivity
    | rewrite lookup_singleton_ne by done; reflexivity
    | rewrite lookup_set_if_truthy_eq;
      destruct (present_str _); [reflexivity|];
      skip_other_keys; apply lookup_empty
    | rewrite lookup_set_if_not_None_eq;
      destruct (present_int _); [reflexivity|];
      skip_other_keys; apply lookup_empty
    | apply lookup_empty ].

Ltac split_on_key k :=
  simpl query_lookup;
  repeat match goal with
    | |- context [String.eqb k ?name] =>
        destruct (String.eqb_spec k name) as [->|?]; [read_key|]
    end;
  read_key.

Section client_facts.
Context `{Scalars}.
Variable session_request : request → outcome.

Lemma _make_request_run (self : HunterClient) (endpoint : string)
    (ps : option (gmap string param)) (m : string) (log : list request) :
  let req := {| method := m;
                url := base_url self +:+ endpoint;
                params := <["api_key" := PStr (api_key self)]> (default ∅ ps);
                req_timeout := timeout self |} in
  _make_request session_request self endpoint ps m log
  = (classify (session_request req), (log ++ [req])%list).
Proof.
  intros req. unfold _make_request, _execute_request, urljoin, classify.
  fold req. destruct (session_request req) as [cls descr|resp]; [|done].
  by destruct (issubclass cls RequestException).
Qed.

Lemma _make_request_then {A} (self : HunterClient) (endpoint : string)
    (ps : option (gmap string param)) (m : string) (k : json → result A)
    (log : list request) :
  let req := {| method := m;
                url := base_url self +:+ endpoint;
                params := <["api_key" := PStr (api_key self)]> (default ∅ ps);
                req_timeout := timeout self |} in
  M_bind (_make_request session_request self endpoint ps m)
    (λ response_data, lift (k response_data)) log
  = (classify (session_request req) ≫= k, (log ++ [req])%list).
Proof.
  intros req. unfold M_bind. rewrite _make_request_run. fold req.
  unfold lift. by destruct (classify (session_request req)).
Qed.

Lemma domain_search_run (self : HunterClient)
    (domain company : option string) (limit offset : option Z)
    (type_filter seniority department required_field : option string)
    (log : list request) :
  domain_search_pre domain company = true →
  ∃ req,
    domain_search session_request self domain company limit offset
      type_filter seniority department required_field log
    = (classify (session_request req)
         ≫= construct DomainSearchResponse_validate,
       (log ++ [req])%list)
    ∧ method req = "GET"
    ∧ url req = base_url self +:+ "domain-search"
    ∧ req_timeout req = timeout self
    ∧ ∀ k, params req !! k
           = query_lookup k
               [("api_key", Some (PStr (api_key self)));
                ("domain", present_str domain);
                ("company", present_str company);
                ("limit", present_int limit);
                ("offset", present_int offset);
                ("type", present_str type_filter);
                ("seniority", present_str seniority);
                ("department", present_str department);
                ("required_field", present_str required_field)].
Proof.
  unfold domain_search_pre. intros Hpre.
  unfold domain_search. rewrite <- negb_orb, Hpre. cbn [negb].
  cbv beta iota. rewrite _make_request_then.
  eexists. split; [reflexivity|]. cbn [method url req_timeout params].
  repeat split. intros k. cbv [default from_option id]. split_on_key k.
Qed.

Lemma truthy_py_and (a b : option string) :
  truthy_str (py_and a b) = truthy_str a && truthy_str b.
Proof. unfold py_and. by destruct (truthy_str a) eqn:Ha; simpl. Qed.

Lemma _validate_email_finder_params_pre
    (domain company first_name last_name full_name : option string) :
  email_finder_pre domain company first_name last_name full_name = true →
  _validate_email_finder_params domain company first_name last_name
    full_name = Ok tt.
Proof.
  unfold email_finder_pre, _validate_email_finder_params.
  rewrite truthy_py_and, <- !negb_orb.
  intros [-> ->]%andb_true_iff. reflexivity.
Qed.

Lemma email_finder_run (self : HunterClient)
    (domain company first_name last_name full_name : option string)
    (max_duration : option Z) (log : list request) :
  email_finder_pre domain company first_name last_name full_name = true →
  ∃ req,
    email_finder session_request self domain company first_name last_name
      full_name max_duration log
    = (classify (session_request req)
         ≫= construct EmailFinderResponse_validate,
       (log ++ [req])%list)
    ∧ method req = "GET"
    ∧ url req = base_url self +:+ "email-finder"
    ∧ req_timeout req = timeout self
    ∧ ∀ k, params req !! k
           = query_lookup k
               [("api_key", Some (PStr (api_key self)));
                ("domain", present_str domain);
                ("company", present_str company);
                ("first_name", present_str first_name);
                ("last_name", present_str last_name);
                ("full_name", present_str full_name);
                ("max_duration", present_int max_duration)].
Proof.
  intros Hpre. unfold email_finder.
  rewrite (_validate_email_finder_params_pre _ _ _ _ _ Hpre).
  change (M_bind (lift (Ok tt)) ?f log) with (f tt log).
  cbv beta. rewrite _make_request_then.
  eexists. split; [reflexivity|]. cbn [method url req_timeout params].
  repeat split. intros k. cbv [default from_option id]. split_on_key k.
Qed.

Lemma email_verifier_run (self : HunterClient) (email : string)
    (log : list request) :
  email_verifier_pre email = true →
  ∃ req,
    email_verifier session_request self email log
    = (classify (session_request req)
         ≫= construct EmailVerificationResponse_validate,
       (log ++ [req])%list)
    ∧ method req = "GET"
    ∧ url req = base_url self +:+ "email-verifier"
    ∧ req_timeout req = timeout self
    ∧ ∀ k, params req !! k
           = query_lookup k
               [("api_key", Some (PStr (api_key self)));
                ("email", Some (PStr email))].
Proof.
  unfold email_verifier_pre. intros Hpre.
  unfold email_verifier. cbn [truthy]. rewrite Hpre. cbn [negb].
  cbv beta iota. rewrite _make_request_then.
  eexists. split; [reflexivity|]. cbn [method url req_timeout params].
  repeat split. intros k. cbv [default from_option id]. split_on_key k.
Qed.

(** ** Rejected invocations *)

Lemma domain_search_rejects (self : HunterClient)
    (domain company : option string) (limit offset : option Z)
    (type_filter seniority department required_field : option string)
    (log : list request) :
  domain_search_pre domain company = false →
  domain_search session_request self domain company limit offset
    type_filter seniority department required_field log
  = (Raise (ValueError_init "Either domain or company must be provided"),
     log).
Proof.
  unfold domain_search_pre, domain_search. intros Hpre.
  by rewrite <- negb_orb, Hpre.
Qed.

Lemma email_finder_rejects (self : HunterClient)
    (domain company first_name last_name full_name : option string)
    (max_duration : option Z) (log : list request) (e : exn) :
  _validate_email_finder_params domain company first_name last_name
    full_name = Raise e →
  email_finder session_request self domain company first_name last_name
    full_name max_duration log
  = (Raise e, log).
Proof. intros Hv. unfold email_finder. by rewrite Hv. Qed.

Lemma email_verifier_rejects (self : HunterClient) (email : string)
    (log : list request) :
  email_verifier_pre email = false →
  email_verifier session_request self email log
  = (Raise (ValueError_init "Email address is required"), log).
Proof.
  unfold email_verifier_pre, email_verifier. cbn [truthy].
  intros Hpre. apply negb_false_iff in Hpre. by rewrite Hpre.
Qed.

Lemma _validate_email_finder_params_cases
    (domain company first_name last_name full_name : option string) :
  _validate_email_finder_params domain company first_name last_name
    full_name
  = if negb (domain_search_pre domain company) then
      Raise (ValueError_init "Either domain or company must be provided")
    else if negb ((truthy_str first_name && truthy_str last_name)
                  || truthy_str full_name) then
      Raise (ValueError_init
        "Either first_name and last_name, or full_name must be provided")
    else Ok tt.
Proof.
  unfold _validate_email_finder_params, domain_search_pre.
  by rewrite truthy_py_and, <- !negb_orb.
Qed.

End client_facts.

(* ===================================================================== *)
(** * Classification of the HTTP exchange *)
(* ===================================================================== *)

Lemma _process_response_401 (r : response.t) :
  response.status_code r = 401 →
  _process_response r
  = Raise {| exn_class := HunterAuthError;
             message := Some (JStr "Invalid API key");
             status_code := Some 401 |}.
Proof. intros Hs. unfold _process_response. by rewrite Hs. Qed.

Lemma _process_response_429 (r : response.t) :
  response.status_code r = 429 →
  _process_response r
  = Raise {| exn_class := HunterRateLimitError;
             message := Some (JStr "Rate limit exceeded");
             status_code := Some 429 |}.
Proof. intros Hs. unfold _process_response. by rewrite Hs. Qed.

Lemma _process_response_below_400 (r : response.t) :
  response.status_code r < 400 →
  _process_response r = _parse_json_response r.
Proof.
  intros Hs. unfold _process_response.
  destruct (Z.eqb_spec (response.status_code r) 401); [lia|].
  destruct (Z.eqb_spec (response.status_code r) 429); [lia|].
  unfold Z.geb.
  destruct (Z.compare_spec (response.status_code r) 400); (lia || done).
Qed.

Lemma _process_response_other_error (r : response.t) :
  (400 ≤ response.status_code r)%Z →
  response.status_code r ≠ 401 →
  response.status_code r ≠ 429 →
  _process_response r
  = (error_message ← _extract_error_message r;
     Raise (HunterAPIError_init HunterAPIError error_message
              (Some (response.status_code r)))).
Proof.
  intros Hs H401 H429. unfold _process_response.
  destruct (Z.eqb_spec (response.status_code r) 401); [done|].
  destruct (Z.eqb_spec (response.status_code r) 429); [done|].
  unfold Z.geb.
  destruct (Z.compare_spec (response.status_code r) 400); (lia || done).
Qed.

Lemma _parse_json_response_garbled (r : response.t) (descr : string) :
  response.body r = inl descr →
  _parse_json_response r
  = Raise {| exn_class := HunterAPIError;
             message := Some (JStr ("Invalid JSON response: " +:+ descr));
             status_code := Some 0 |}.
Proof.
  intros Hb. unfold _parse_json_response, response_json. by rewrite Hb.
Qed.

Lemma status_classified_intro {A} (session_request : request → outcome)
    (log : list request) (req : request) (k : json → result A) :
  status_classified session_request log
    (classify (session_request req) ≫= k, (log ++ [req])%list).
Proof.
  exists req. split; [done|]. intros r Hr. cbn [fst]. rewrite Hr.
  cbn [classify]. split; intros Hs.
  - rewrite (_process_response_401 _ Hs). by eexists.
  - rewrite (_process_response_429 _ Hs). by eexists.
Qed.

Lemma fault_classified_intro {A} (session_request : request → outcome)
    (log : list request) (req : request) (k : json → result A) :
  fault_classified session_request log
    (classify (session_request req) ≫= k, (log ++ [req])%list).
Proof.
  exists req. split; [done|]. cbn [fst]. split.
  - intros cls descr -> Hsub. cbn [classify]. rewrite Hsub.
    split; [done|]. eexists. by repeat split.
  - intros r descr -> Hs Hb. cbn [classify].
    rewrite (_process_response_below_400 _ Hs).
    by rewrite (_parse_json_response_garbled _ _ Hb).
Qed.

Section contract.
Context `{Scalars}.
Variable session_request : request → outcome.
Variable self : HunterClient.
Variable log : list request.

(** C1.  Whichever of the three operations received it, an answer with
    status 401 makes the call raise a [HunterAuthError] with
    [status_code] 401 and a message containing "Invalid API key", and an
    answer with status 429 makes it raise a [HunterRateLimitError] with
    [status_code] 429 and a message containing "Rate limit exceeded"; the
    call raises, so no response value comes back. *)
Theorem status_401_and_429_raise :
  (∀ domain company limit offset type_filter seniority department
     required_field,
     domain_search_pre domain company = true →
     status_classified session_request log
       (domain_search session_request self domain company limit offset
          type_filter seniority department required_field log))
  ∧ (∀ domain company first_name last_name full_name max_duration,
       email_finder_pre domain company first_name last_name full_name
       = true →
       status_classified session_request log
         (email_finder session_request self domain company first_name
            last_name full_name max_duration log))
  ∧ (∀ email,
       email_verifier_pre email = true →
       status_classified session_request log
         (email_verifier session_request self email log)).
Proof.
  split; [|split].
  - intros d c l o t s dep rf Hpre.
    destruct (domain_search_run session_request self d c l o t s dep rf
                log Hpre) as (req & -> & _).
    apply status_classified_intro.
  - intros d c f l fn md Hpre.
    destruct (email_finder_run session_request self d c f l fn md log
                Hpre) as (req & -> & _).
    apply status_classified_intro.
  - intros e Hpre.
    destruct (email_verifier_run session_request self e log Hpre)
      as (req & -> & _).
    apply status_classified_intro.
Qed.

(** C3.  An invocation that violates the operation's precondition
    ([domain_search]: neither domain nor company; [email_finder]: its
    combination of arguments; [email_verifier]: empty email) raises the
    validation error, a [ValueError], and leaves the log of requests as it
    was: nothing reached the session. *)
Theorem invalid_arguments_raise_before_any_request :
  (∀ domain company limit offset type_filter seniority department
     required_field,
     domain_search_pre domain company = false →
     ∃ e,
       domain_search session_request self domain company limit offset
         type_filter seniority department required_field log
       = (Raise e, log)
       ∧ exn_class e = ValueError)
  ∧ (∀ domain company first_name last_name full_name max_duration,
       email_finder_pre domain company first_name last_name full_name
       = false →
       ∃ e,
         email_finder session_request self domain company first_name
           last_name full_name max_duration log
         = (Raise e, log)
         ∧ exn_class e = ValueError)
  ∧ (∀ email,
       email_verifier_pre email = false →
       ∃ e,
         email_verifier session_request self email log = (Raise e, log)
         ∧ exn_class e = ValueError).
Proof.
  split; [|split].
  - intros d c l o t s dep rf Hpre. eexists.
    split; [by apply domain_search_rejects|reflexivity].
  - intros d c f l fn md Hpre. unfold email_finder_pre in Hpre.
    pose proof (_validate_email_finder_params_cases d c f l fn) as Hv.
    unfold domain_search_pre in Hv.
    destruct (truthy_str d || truthy_str c); cbn [negb andb] in Hv, Hpre.
    + rewrite Hpre in Hv. cbn [negb] in Hv.
      eexists. split; [by apply email_finder_rejects|reflexivity].
    + eexists. split; [by apply email_finder_rejects|reflexivity].
  - intros e Hpre. eexists.
    split; [by apply email_verifier_rejects|reflexivity].
Qed.

(** C5.  A validated invocation hands the session exactly one request, a
    GET, whose query mapping binds [api_key] to the client's key, binds
    each present argument under its external name ([type] for
    [type_filter]) and has no other key. *)
Theorem query_holds_key_and_present_arguments :
  (∀ domain company limit offset type_filter seniority department
     required_field,
     domain_search_pre domain company = true →
     sends_query
       [("api_key", Some (PStr (api_key self)));
        ("domain", present_str domain);
        ("company", present_str company);
        ("limit", present_int limit);
        ("offset", present_int offset);
        ("type", present_str type_filter);
        ("seniority", present_str seniority);
        ("department", present_str department);
        ("required_field", present_str required_field)]
       log
       (domain_search session_request self domain company limit offset
          type_filter seniority department required_field log))
  ∧ (∀ domain company first_name last_name full_name max_duration,
       email_finder_pre domain company first_name last_name full_name
       = true →
       sends_query
         [("api_key", Some (PStr (api_key self)));
          ("domain", present_str domain);
          ("company", present_str company);
          ("first_name", present_str first_name);
          ("last_name", present_str last_name);
          ("full_name", present_str full_name);
          ("max_duration", present_int max_duration)]
         log
         (email_finder session_request self domain company first_name
            last_name full_name max_duration log))
  ∧ (∀ email,
       email_verifier_pre email = true →
       sends_query
         [("api_key", Some (PStr (api_key self)));
          ("email", Some (PStr email))]
         log
         (email_verifier session_request self email log)).
Proof.
  split; [|split].
  - intros d c l o t s dep rf Hpre.
    destruct (domain_search_run session_request self d c l o t s dep rf
                log Hpre) as (req & -> & Hm & _ & _ & Hq).
    by exists req.
  - intros d c f l fn md Hpre.
    destruct (email_finder_run session_request self d c f l fn md log
                Hpre) as (req & -> & Hm & _ & _ & Hq).
    by exists req.
  - intros e Hpre.
    destruct (email_verifier_run session_request self e log Hpre)
      as (req & -> & Hm & _ & _ & Hq).
    by exists req.
Qed.

(** C6.  A failure that no HTTP status classifies, namely the session
    raising a [RequestException] such as a connection error or a timeout,
    or a body that does not decode on an answer below 400, comes out of
    each operation as a plain [HunterAPIError] whose message wraps the
    description of the fault and whose [status_code] is 0; for the
    session's failure the message contains "Request failed". *)
Theorem unclassified_faults_become_generic_errors :
  issubclass ConnectionError RequestException = true
  ∧ issubclass Timeout RequestException = true
  ∧ (∀ domain company limit offset type_filter seniority department
       required_field,
       domain_search_pre domain company = true →
       fault_classified session_request log
         (domain_search session_request self domain company limit offset
            type_filter seniority department required_field log))
  ∧ (∀ domain company first_name last_name full_name max_duration,
       email_finder_pre domain company first_name last_name full_name
       = true →
       fault_classified session_request log
         (email_finder session_request self domain company first_name
            last_name full_name max_duration log))
  ∧ (∀ email,
       email_verifier_pre email = true →
       fault_classified session_request log
         (email_verifier session_request self email log)).
Proof.
  split; [reflexivity|]. split; [reflexivity|]. split; [|split].
  - intros d c l o t s dep rf Hpre.
    destruct (domain_search_run session_request self d c l o t s dep rf
                log Hpre) as (req & -> & _).
    apply fault_classified_intro.
  - intros d c f l fn md Hpre.
    destruct (email_finder_run session_request self d c f l fn md log
                Hpre) as (req & -> & _).
    apply fault_classified_intro.
  - intros e Hpre.
    destruct (email_verifier_run session_request self e log Hpre)
      as (req & -> & _).
    apply fault_classified_intro.
Qed.

End contract.

Section contract_arguments.
Context `{Scalars}.
Variable session_request : request → outcome.
Variable self : HunterClient.
Variable log : list request.

(** C4.  [email_finder]'s validation succeeds exactly when (domain or
    company is present) and ((first_name and last_name are both present)
    or full_name is present).  An invocation violating it raises a
    [ValueError] whose text names the missing combination, and
    [email_finder(domain="example.com")] raises one that mentions
    "first_name and last_name, or full_name". *)
Theorem email_finder_validation :
  (∀ domain company first_name last_name full_name,
     _validate_email_finder_params domain company first_name last_name
       full_name = Ok tt
     ↔ email_finder_pre domain company first_name last_name full_name
       = true)
  ∧ (∀ domain company first_name last_name full_name max_duration,
       email_finder_pre domain company first_name last_name full_name
       = false →
       (truthy_str domain || truthy_str company = false
        ∧ rejected "Either domain or company must be provided" log
            (email_finder session_request self domain company first_name
               last_name full_name max_duration log))
       ∨ ((truthy_str first_name && truthy_str last_name)
          || truthy_str full_name = false
          ∧ rejected
              "Either first_name and last_name, or full_name must be provided"
              log
              (email_finder session_request self domain company first_name
                 last_name full_name max_duration log)))
  ∧ (∃ e,
       email_finder session_request self (Some "example.com") None None
         None None None log
       = (Raise e, log)
       ∧ exn_class e = ValueError
       ∧ message_contains "first_name and last_name, or full_name" e
         = true).
Proof.
  split; [|split].
  - intros d c f l fn.
    rewrite _validate_email_finder_params_cases.
    unfold email_finder_pre, domain_search_pre.
    destruct (truthy_str d || truthy_str c); cbn [negb andb]; [|done].
    by destruct (truthy_str f && truthy_str l || truthy_str fn).
  - intros d c f l fn md Hpre. unfold rejected.
    pose proof (_validate_email_finder_params_cases d c f l fn) as Hv.
    unfold email_finder_pre in Hpre. unfold domain_search_pre in Hv.
    destruct (truthy_str d || truthy_str c); cbn [negb andb] in Hv, Hpre.
    + right. split; [done|]. rewrite Hpre in Hv.
      by apply email_finder_rejects.
    + left. split; [done|]. by apply email_finder_rejects.
  - eexists. split; [by apply email_finder_rejects|]. by split.
Qed.

(** C9.  An integer argument equal to 0 counts as present and is sent
    ([limit], [offset], [max_duration]); a string argument equal to the
    empty string counts as absent and is not sent;
    [domain_search] with domain and company both empty raises the same
    [ValueError] as leaving them out, and [email_verifier] with the empty
    string raises without sending. *)
Theorem zero_is_sent_and_empty_string_is_not :
  (∀ domain company limit offset type_filter seniority department
     required_field,
     domain_search_pre domain company = true →
     ∃ req,
       snd (domain_search session_request self domain company limit offset
              type_filter seniority department required_field log)
       = (log ++ [req])%list
       ∧ (limit = Some 0 → params req !! "limit" = Some (PInt 0))
       ∧ (offset = Some 0 → params req !! "offset" = Some (PInt 0))
       ∧ (domain = Some "" → params req !! "domain" = None)
       ∧ (company = Some "" → params req !! "company" = None)
       ∧ (type_filter = Some "" → params req !! "type" = None)
       ∧ (seniority = Some "" → params req !! "seniority" = None)
       ∧ (department = Some "" → params req !! "department" = None)
       ∧ (required_field = Some "" →
          params req !! "required_field" = None))
  ∧ (∀ domain company first_name last_name full_name max_duration,
       email_finder_pre domain company first_name last_name full_name
       = true →
       ∃ req,
         snd (email_finder session_request self domain company first_name
                last_name full_name max_duration log)
         = (log ++ [req])%list
         ∧ (max_duration = Some 0 →
            params req !! "max_duration" = Some (PInt 0))
         ∧ (domain = Some "" → params req !! "domain" = None)
         ∧ (company = Some "" → params req !! "company" = None)
         ∧ (first_name = Some "" → params req !! "first_name" = None)
         ∧ (last_name = Some "" → params req !! "last_name" = None)
         ∧ (full_name = Some "" → params req !! "full_name" = None))
  ∧ (∀ limit offset type_filter seniority department required_field,
       domain_search session_request self (Some "") (Some "") limit offset
         type_filter seniority department required_field log
       = domain_search session_request self None None limit offset
           type_filter seniority department required_field log
       ∧ rejected "Either domain or company must be provided" log
           (domain_search session_request self (Some "") (Some "") limit
              offset type_filter seniority department required_field log))
  ∧ rejected "Email address is required" log
      (email_verifier session_request self "" log).
Proof.
  split; [|split; [|split]].
  - intros d c l o t s dep rf Hpre.
    destruct (domain_search_run session_request self d c l o t s dep rf
                log Hpre) as (req & -> & _ & _ & _ & Hq).
    exists req. split; [done|].
    repeat split; intros ->; by rewrite Hq.
  - intros d c f l fn md Hpre.
    destruct (email_finder_run session_request self d c f l fn md log
                Hpre) as (req & -> & _ & _ & _ & Hq).
    exists req. split; [done|].
    repeat split; intros ->; by rewrite Hq.
  - intros l o t s dep rf. unfold rejected.
    by rewrite !domain_search_rejects.
  - by apply email_verifier_rejects.
Qed.

(** C10.  [HunterAuthError] and [HunterRateLimitError] are subclasses of
    [HunterAPIError] and share its [message] and [status_code], the
    latter 0 unless given; a validation failure is a plain [ValueError],
    which is no [HunterAPIError].  So an [except HunterAPIError] clause
    catches every exception of the three classes and catches none of the
    validation failures of the three operations. *)
Theorem error_hierarchy :
  base HunterAuthError = Some HunterAPIError
  ∧ base HunterRateLimitError = Some HunterAPIError
  ∧ issubclass ValueError HunterAPIError = false
  ∧ issubclass HunterAPIError ValueError = false
  ∧ (∀ cls msg,
       message (HunterAPIError_init cls msg None) = Some msg
       ∧ status_code (HunterAPIError_init cls msg None) = Some 0)
  ∧ (∀ cls msg code,
       cls ∈ [HunterAPIError; HunterAuthError; HunterRateLimitError] →
       caught_by (A := unit) HunterAPIError
         (Raise (HunterAPIError_init cls msg code)) = true)
  ∧ (∀ domain company limit offset type_filter seniority department
       required_field,
       domain_search_pre domain company = false →
       caught_by HunterAPIError
         (fst (domain_search session_request self domain company limit
                 offset type_filter seniority department required_field
                 log)) = false)
  ∧ (∀ domain company first_name last_name full_name max_duration,
       email_finder_pre domain company first_name last_name full_name
       = false →
       caught_by HunterAPIError
         (fst (email_finder session_request self domain company first_name
                 last_name full_name max_duration log)) = false)
  ∧ (∀ email,
       email_verifier_pre email = false →
       caught_by HunterAPIError
         (fst (email_verifier session_request self email log)) = false).
Proof.
  split_and!; try reflexivity.
  - by intros cls msg.
  - intros cls msg code Hin. cbn [caught_by]. unfold isinstance.
    cbn [exn_class HunterAPIError_init].
    repeat (apply elem_of_cons in Hin as [->|Hin]; [reflexivity|]).
    by apply elem_of_nil in Hin.
  - intros d c l o t s dep rf Hpre. by rewrite domain_search_rejects.
  - intros d c f l fn md Hpre. unfold email_finder_pre in Hpre.
    pose proof (_validate_email_finder_params_cases d c f l fn) as Hv.
    unfold domain_search_pre in Hv.
    destruct (truthy_str d || truthy_str c); cbn [negb andb] in Hv, Hpre.
    + rewrite Hpre in Hv. cbn [negb] in Hv.
      by rewrite (email_finder_rejects session_request self d c f l fn md
                    log _ Hv).
    + by rewrite (email_finder_rejects session_request self d c f l fn md
                    log _ Hv).
  - intros e Hpre. by rewrite email_verifier_rejects.
Qed.

End contract_arguments.

(* ===================================================================== *)
(** * Response schemas *)
(* ===================================================================== *)

Section schema_facts.
Context `{Scalars}.

Lemma required_Some {A B} (conv : json → option A) (k : string)
    (d : list (string * json)) (v : json) (a : A) (f : A → option B) :
  dict_get k d = Some v → conv v = Some a →
  (required conv k d ≫= f) = f a.
Proof. intros Hk Hv. unfold required. by rewrite Hk; simpl; rewrite Hv. Qed.

Lemma optional_None {A B} (conv : json → option A) (k : string)
    (d : list (string * json)) (f : option A → option B) :
  dict_get k d = None → (optional conv k d ≫= f) = f None.
Proof. intros Hk. unfold optional. by rewrite Hk. Qed.

Lemma list_of_None {A B} (conv : json → option A) (k : string)
    (d : list (string * json)) (f : list A → option B) :
  dict_get k d = None → (list_of conv k d ≫= f) = f [].
Proof. intros Hk. unfold list_of. by rewrite Hk. Qed.

Lemma required_inv {A B} (conv : json → option A) (k : string)
    (d : list (string * json)) (f : A → option B) (b : B) :
  (required conv k d ≫= f) = Some b →
  ∃ v a, dict_get k d = Some v ∧ conv v = Some a ∧ f a = Some b.
Proof.
  unfold required. destruct (dict_get k d) as [v|]; [|done]. simpl.
  destruct (conv v) as [a|] eqn:Hv; [|done]. simpl. eauto.
Qed.

Lemma only_keys_absent (names : list string) (d : list (string * json))
    (k : string) :
  only_keys names d = true →
  existsb (String.eqb k) names = false →
  dict_get k d = None.
Proof.
  unfold only_keys. intros Hd Hk.
  induction d as [|[k' v] d IH]; [done|]. simpl in *.
  apply andb_true_iff in Hd as [Hk' Hd].
  destruct (String.eqb_spec k k') as [->|]; [congruence|]. by apply IH.
Qed.

Lemma bind_inv {A B} (m : option A) (f : A → option B) (b : B) :
  (m ≫= f) = Some b → ∃ a, m = Some a ∧ f a = Some b.
Proof. destruct m as [a|]; [|done]. simpl. eauto. Qed.

End schema_facts.

Ltac field_by_field Honly :=
  repeat first
    [ erewrite required_Some;
      [ | eassumption
        | first [ apply as_str_exact | apply as_int_exact
                | apply as_bool_exact ] ]
    | rewrite optional_None
        by (apply (only_keys_absent _ _ _ Honly); reflexivity)
    | rewrite list_of_None
        by (apply (only_keys_absent _ _ _ Honly); reflexivity) ];
  reflexivity.

Section schema_defaults.
Context `{Scalars}.

Lemma Meta_validate_empty :
  Meta_validate [] = Some (Meta.mk None None None None).
Proof. reflexivity. Qed.

Lemma DomainSearchData_validate_minimal (d : list (string * json))
    (domain : string) (disposable webmail accept_all : bool) :
  dict_get "domain" d = Some (JStr domain) →
  dict_get "disposable" d = Some (JBool disposable) →
  dict_get "webmail" d = Some (JBool webmail) →
  dict_get "accept_all" d = Some (JBool accept_all) →
  only_keys ["domain"; "disposable"; "webmail"; "accept_all"] d = true →
  DomainSearchData_validate d
  = Some (DomainSearchData.mk domain disposable webmail accept_all
            None None None None None None None None None []
            None None None None None None None [] []).
Proof.
  intros H1 H2 H3 H4 Honly. unfold DomainSearchData_validate.
  field_by_field Honly.
Qed.

Lemma EmailFinderData_validate_minimal (d : list (string * json))
    (first_name last_name email : string) (score : Z) (domain : string)
    (accept_all : bool) :
  dict_get "first_name" d = Some (JStr first_name) →
  dict_get "last_name" d = Some (JStr last_name) →
  dict_get "email" d = Some (JStr email) →
  dict_get "score" d = Some (JInt score) →
  dict_get "domain" d = Some (JStr domain) →
  dict_get "accept_all" d = Some (JBool accept_all) →
  only_keys ["first_name"; "last_name"; "email"; "score"; "domain";
             "accept_all"] d = true →
  EmailFinderData_validate d
  = Some (EmailFinderData.mk first_name last_name email score domain
            accept_all None None None None None [] None).
Proof.
  intros H1 H2 H3 H4 H5 H6 Honly. unfold EmailFinderData_validate.
  field_by_field Honly.
Qed.

Lemma EmailVerificationData_validate_minimal (d : list (string * json))
    (status result : string) (score : Z) (email : string)
    (regexp gibberish disposable webmail mx_records smtp_server smtp_check
       accept_all block : bool) :
  dict_get "status" d = Some (JStr status) →
  dict_get "result" d = Some (JStr result) →
  dict_get "score" d = Some (JInt score) →
  dict_get "email" d = Some (JStr email) →
  dict_get "regexp" d = Some (JBool regexp) →
  dict_get "gibberish" d = Some (JBool gibberish) →
  dict_get "disposable" d = Some (JBool disposable) →
  dict_get "webmail" d = Some (JBool webmail) →
  dict_get "mx_records" d = Some (JBool mx_records) →
  dict_get "smtp_server" d = Some (JBool smtp_server) →
  dict_get "smtp_check" d = Some (JBool smtp_check) →
  dict_get "accept_all" d = Some (JBool accept_all) →
  dict_get "block" d = Some (JBool block) →
  only_keys ["status"; "result"; "score"; "email"; "regexp"; "gibberish";
             "disposable"; "webmail"; "mx_records"; "smtp_server";
             "smtp_check"; "accept_all"; "block"] d = true →
  EmailVerificationData_validate d
  = Some (EmailVerificationData.mk status result score email regexp
            gibberish disposable webmail mx_records smtp_server smtp_check
            accept_all block []).
Proof.
  intros H1 H2 H3 H4 H5 H6 H7 H8 H9 H10 H11 H12 H13 Honly.
  unfold EmailVerificationData_validate.
  field_by_field Honly.
Qed.

End schema_defaults.

Section schema_contract.
Context `{Scalars}.

Lemma Email_validate_minimal (d : list (string * json))
    (value type : string) (confidence : Z) :
  dict_get "value" d = Some (JStr value) →
  dict_get "type" d = Some (JStr type) →
  dict_get "confidence" d = Some (JInt confidence) →
  only_keys ["value"; "type"; "confidence"] d = true →
  Email_validate d
  = Some (Email.mk value type confidence [] None None None None None None
            None None None).
Proof.
  intros H1 H2 H3 Honly. unfold Email_validate. field_by_field Honly.
Qed.

(** C7.  Built from a JSON object that holds only the required fields,
    each response model validates, every [Optional] field of the result is
    [None] and every list field is the empty list; a response is the pair
    of its [data] and its [meta].  The same holds for the models nested in
    them. *)
Theorem defaults_of_required_only :
  (∀ d data domain disposable webmail accept_all,
     dict_get "data" d = Some (JObj data) →
     dict_get "meta" d = Some (JObj []) →
     dict_get "domain" data = Some (JStr domain) →
     dict_get "disposable" data = Some (JBool disposable) →
     dict_get "webmail" data = Some (JBool webmail) →
     dict_get "accept_all" data = Some (JBool accept_all) →
     only_keys ["domain"; "disposable"; "webmail"; "accept_all"] data
     = true →
     construct DomainSearchResponse_validate (JObj d)
     = Ok (DomainSearchResponse.mk
             (DomainSearchData.mk domain disposable webmail accept_all
                None None None None None None None None None []
                None None None None None None None [] [])
             (Meta.mk None None None None)))
  ∧ (∀ d data first_name last_name email score domain accept_all,
       dict_get "data" d = Some (JObj data) →
       dict_get "meta" d = Some (JObj []) →
       dict_get "first_name" data = Some (JStr first_name) →
       dict_get "last_name" data = Some (JStr last_name) →
       dict_get "email" data = Some (JStr email) →
       dict_get "score" data = Some (JInt score) →
       dict_get "domain" data = Some (JStr domain) →
       dict_get "accept_all" data = Some (JBool accept_all) →
       only_keys ["first_name"; "last_name"; "email"; "score"; "domain";
                  "accept_all"] data = true →
       construct EmailFinderResponse_validate (JObj d)
       = Ok (EmailFinderResponse.mk
               (EmailFinderData.mk first_name last_name email score domain
                  accept_all None None None None None [] None)
               (Meta.mk None None None None)))
  ∧ (∀ d data status result score email regexp gibberish disposable
       webmail mx_records smtp_server smtp_check accept_all block,
       dict_get "data" d = Some (JObj data) →
       dict_get "meta" d = Some (JObj []) →
       dict_get "status" data = Some (JStr status) →
       dict_get "result" data = Some (JStr result) →
       dict_get "score" data = Some (JInt score) →
       dict_get "email" data = Some (JStr email) →
       dict_get "regexp" data = Some (JBool regexp) →
       dict_get "gibberish" data = Some (JBool gibberish) →
       dict_get "disposable" data = Some (JBool disposable) →
       dict_get "webmail" data = Some (JBool webmail) →
       dict_get "mx_records" data = Some (JBool mx_records) →
       dict_get "smtp_server" data = Some (JBool smtp_server) →
       dict_get "smtp_check" data = Some (JBool smtp_check) →
       dict_get "accept_all" data = Some (JBool accept_all) →
       dict_get "block" data = Some (JBool block) →
       only_keys ["status"; "result"; "score"; "email"; "regexp";
                  "gibberish"; "disposable"; "webmail"; "mx_records";
                  "smtp_server"; "smtp_check"; "accept_all"; "block"] data
     = true →
       construct EmailVerificationResponse_validate (JObj d)
       = Ok (EmailVerificationResponse.mk
               (EmailVerificationData.mk status result score email regexp
                  gibberish disposable webmail mx_records smtp_server
                  smtp_check accept_all block [])
               (Meta.mk None None None None)))
  ∧ (∀ d value type confidence,
       dict_get "value" d = Some (JStr value) →
       dict_get "type" d = Some (JStr type) →
       dict_get "confidence" d = Some (JInt confidence) →
       only_keys ["value"; "type"; "confidence"] d = true →
       Email_validate d
       = Some (Email.mk value type confidence [] None None None None None
                 None None None None))
  ∧ EmailVerification_validate [] = Some (EmailVerification.mk None None)
  ∧ MetaParams_validate []
    = Some (MetaParams.mk None None None None None None None None None)
  ∧ Meta_validate [] = Some (Meta.mk None None None None).
Proof.
  split_and!; try reflexivity.
  - intros d data dom disp web acc Hdata Hmeta H1 H2 H3 H4 Honly.
    unfold construct, DomainSearchResponse_validate.
    erewrite required_Some;
      [|exact Hdata
       |by apply DomainSearchData_validate_minimal].
    erewrite required_Some; [|exact Hmeta|by apply Meta_validate_empty].
    reflexivity.
  - intros d data f l e sc dom acc Hdata Hmeta H1 H2 H3 H4 H5 H6 Honly.
    unfold construct, EmailFinderResponse_validate.
    erewrite required_Some;
      [|exact Hdata
       |by apply EmailFinderData_validate_minimal].
    erewrite required_Some; [|exact Hmeta|by apply Meta_validate_empty].
    reflexivity.
  - intros d data st res sc e b1 b2 b3 b4 b5 b6 b7 b8 b9 Hdata Hmeta
      H1 H2 H3 H4 H5 H6 H7 H8 H9 H10 H11 H12 H13 Honly.
    unfold construct, EmailVerificationResponse_validate.
    erewrite required_Some;
      [|exact Hdata
       |by apply EmailVerificationData_validate_minimal].
    erewrite required_Some; [|exact Hmeta|by apply Meta_validate_empty].
    reflexivity.
  - intros d v t c H1 H2 H3 Honly. by apply Email_validate_minimal.
Qed.

(** C8, as the code has it.  The models declare [confidence] and [score]
    as plain [int]: the value of a validated record is the integer the
    JSON object held, whatever it is, and no range is enforced; an object
    whose confidence or score is any integer [n] validates and the record
    carries [n]. *)
Theorem confidence_and_score_are_unconstrained_integers :
  (∀ d e, Email_validate d = Some e →
     ∃ v, dict_get "confidence" d = Some v
          ∧ as_int v = Some (Email.confidence e))
  ∧ (∀ d e, EmailFinderData_validate d = Some e →
       ∃ v, dict_get "score" d = Some v
            ∧ as_int v = Some (EmailFinderData.score e))
  ∧ (∀ d e, EmailVerificationData_validate d = Some e →
       ∃ v, dict_get "score" d = Some v
            ∧ as_int v = Some (EmailVerificationData.score e))
  ∧ (∀ n : Z,
       (∃ e, Email_validate
               [("value", JStr "test@example.com");
                ("type", JStr "personal"); ("confidence", JInt n)]
             = Some e
             ∧ Email.confidence e = n)
       ∧ (∃ e, EmailFinderData_validate
                 [("first_name", JStr "John"); ("last_name", JStr "Doe");
                  ("email", JStr "john.doe@example.com");
                  ("score", JInt n); ("domain", JStr "example.com");
                  ("accept_all", JBool false)]
               = Some e
               ∧ EmailFinderData.score e = n)
       ∧ (∃ e, EmailVerificationData_validate
                 [("status", JStr "valid"); ("result", JStr "deliverable");
                  ("score", JInt n); ("email", JStr "test@example.com");
                  ("regexp", JBool true); ("gibberish", JBool false);
                  ("disposable", JBool false); ("webmail", JBool false);
                  ("mx_records", JBool true); ("smtp_server", JBool true);
                  ("smtp_check", JBool true); ("accept_all", JBool false);
                  ("block", JBool false)]
               = Some e
               ∧ EmailVerificationData.score e = n)).
Proof.
  split_and!.
  - intros d e He. unfold Email_validate in He.
    apply required_inv in He as (? & ? & _ & _ & He).
    apply required_inv in He as (? & ? & _ & _ & He).
    apply required_inv in He as (v & n & Hk & Hv & He).
    repeat (apply bind_inv in He as (? & _ & He)).
    injection He as <-. by exists v.
  - intros d e He. unfold EmailFinderData_validate in He.
    do 3 (apply required_inv in He as (? & ? & _ & _ & He)).
    apply required_inv in He as (v & n & Hk & Hv & He).
    repeat (apply bind_inv in He as (? & _ & He)).
    injection He as <-. by exists v.
  - intros d e He. unfold EmailVerificationData_validate in He.
    do 2 (apply required_inv in He as (? & ? & _ & _ & He)).
    apply required_inv in He as (v & n & Hk & Hv & He).
    repeat (apply bind_inv in He as (? & _ & He)).
    injection He as <-. by exists v.
  - intros n. split_and!; eexists; (split; [|shelve]).
    all: unfold Email_validate, EmailFinderData_validate,
           EmailVerificationData_validate, required; simpl;
         repeat (first [ rewrite as_str_exact | rewrite as_int_exact
                       | rewrite as_bool_exact ]; simpl);
         reflexivity.
    Unshelve. all: reflexivity.
Qed.

End schema_contract.

(* ===================================================================== *)
(** * The message of a generic API error *)
(* ===================================================================== *)

Lemma _extract_error_message_garbled (r : response.t) (descr : string) :
  response.body r = inl descr →
  _extract_error_message r = Ok (JStr "API request failed").
Proof.
  intros Hb. unfold _extract_error_message, response_json. by rewrite Hb.
Qed.

(** On a body that decodes to an object the message is decided by the
    [errors] entry alone: the [details] of its first item when that item is
    an object, the fallback when there is no usable list, and an escaping
    [AttributeError] when the first item is not an object. *)
Lemma _extract_error_message_object (r : response.t)
    (d : list (string * json)) :
  response.body r = inr (JObj d) →
  _extract_error_message r
  = match dict_get "errors" d with
    | Some (JArr (JObj e :: _)) =>
        Ok (default (JStr "API request failed") (dict_get "details" e))
    | Some (JArr (_ :: _)) => Raise (builtin_exn AttributeError)
    | _ => Ok (JStr "API request failed")
    end.
Proof.
  intros Hb. unfold _extract_error_message, response_json. rewrite Hb.
  cbn [mbind result_bind py_contains getitem_str].
  destruct (dict_get "errors" d) as [errors|] eqn:He; [|done].
  rewrite bool_decide_true by eauto.
  destruct errors as [| | | | |[|item rest]|];
    cbv [mbind result_bind]; cbn [isinstance_list];
    rewrite ?andb_false_r; try done.
  by destruct item.
Qed.

(** With the error body the API documents, a status of 400 or more other
    than 401 and 429 raises a [HunterAPIError] that carries the status and
    the [details] of the first error, or the fallback when that error has no
    [details]. *)
Lemma generic_error_from_documented_body (r : response.t)
    (d e : list (string * json)) (rest : list json) :
  (400 ≤ response.status_code r)%Z →
  response.status_code r ≠ 401 →
  response.status_code r ≠ 429 →
  response.body r = inr (JObj d) →
  dict_get "errors" d = Some (JArr (JObj e :: rest)) →
  _process_response r
  = Raise {| exn_class := HunterAPIError;
             message := Some (default (JStr "API request failed")
                                (dict_get "details" e));
             status_code := Some (response.status_code r) |}.
Proof.
  intros Hs H401 H429 Hb He.
  rewrite (_process_response_other_error _ Hs H401 H429).
  by rewrite (_extract_error_message_object _ _ Hb), He.
Qed.

Lemma generic_error_fallback (r : response.t) :
  (400 ≤ response.status_code r)%Z →
  response.status_code r ≠ 401 →
  response.status_code r ≠ 429 →
  (∃ descr, response.body r = inl descr)
  ∨ (∃ d, response.body r = inr (JObj d)
          ∧ (dict_get "errors" d = None
             ∨ dict_get "errors" d = Some (JArr [])
             ∨ ∃ v, dict_get "errors" d = Some v
                    ∧ isinstance_list v = false)) →
  _process_response r
  = Raise {| exn_class := HunterAPIError;
             message := Some (JStr "API request failed");
             status_code := Some (response.status_code r) |}.
Proof.
  intros Hs H401 H429 Hcases.
  rewrite (_process_response_other_error _ Hs H401 H429).
  destruct Hcases as [[descr Hb]|(d & Hb & Hcases)].
  - by rewrite (_extract_error_message_garbled _ _ Hb).
  - rewrite (_extract_error_message_object _ _ Hb).
    destruct Hcases as [->|[->|(v & -> & Hv)]]; try done.
    by destruct v as [| | | | |[|item rest]|].
Qed.

Example generic_error_of_the_tests :
  _process_response response_400
  = Raise {| exn_class := HunterAPIError;
             message := Some (JStr "Invalid domain parameter");
             status_code := Some 400 |}.
Proof. reflexivity. Qed.

(** C2, where the code departs from it.  An answer with status 502 whose
    body is the object [{"errors": ["Bad Gateway"]}] decodes, has an
    [errors] list, and its first item has no [details]; the claim asks for
    a [HunterAPIError] with the fallback message, and the code calls [.get]
    on the text and lets the [AttributeError] out of every operation. *)
Theorem error_item_that_is_no_object_escapes :
  _extract_error_message response_502 = Raise (builtin_exn AttributeError)
  ∧ _process_response response_502 = Raise (builtin_exn AttributeError)
  ∧ domain_search (answer_with response_502) sample_client
      (Some "example.com") None None None None None None None []
    = (Raise (builtin_exn AttributeError),
       [{| method := "GET";
           url := "https://api.hunter.io/v2/domain-search";
           params := <["api_key" := PStr "test-api-key"]>
                       {[ "domain" := PStr "example.com" ]};
           req_timeout := 30 |}])
  ∧ caught_by (A := unit) HunterAPIError
      (Raise (builtin_exn AttributeError)) = false.
Proof. split_and!; reflexivity. Qed.

(* ===================================================================== *)
(** * The contract at sample inputs *)
(* ===================================================================== *)

(** A confidence of 150 validates: the range 0 to 100 is not enforced. *)
Lemma confidence_150_validates :
  ∃ e, Email_validate (H := strict) email_out_of_range = Some e
       ∧ Email.confidence e = 150
       ∧ ¬ (0 ≤ Email.confidence e ≤ 100)%Z.
Proof.
  eexists. split; [reflexivity|]. split; [reflexivity|]. simpl. lia.
Qed.

(** A 401 answer to [domain_search(domain="example.com")]. *)
Lemma status_401_and_429_raise_at_sample :
  domain_search_pre (Some "example.com") None = true
  ∧ answer_with response_401
      {| method := "GET"; url := ""; params := ∅; req_timeout := 30 |}
    = Responds response_401
  ∧ response.status_code response_401 = 401
  ∧ raises_with HunterAuthError 401 "Invalid API key"
      (fst (domain_search (answer_with response_401) sample_client
              (Some "example.com") None None None None None None None [])).
Proof.
  split_and!; try reflexivity.
  destruct (status_401_and_429_raise (answer_with response_401)
              sample_client []) as [Hsearch _].
  destruct (Hsearch (Some "example.com") None None None None None None None
              eq_refl) as (req & _ & Hanswer).
  destruct (Hanswer response_401 eq_refl) as [H401 _].
  exact (H401 eq_refl).
Defined.

(** [domain_search()] with no argument. *)
Lemma invalid_arguments_raise_before_any_request_at_sample :
  domain_search_pre None None = false
  ∧ ∃ e,
      domain_search (answer_with response_401) sample_client None None None
        None None None None None []
      = (Raise e, [])
      ∧ exn_class e = ValueError.
Proof.
  split; [reflexivity|].
  destruct (invalid_arguments_raise_before_any_request
              (answer_with response_401) sample_client []) as [Hsearch _].
  exact (Hsearch None None None None None None None None eq_refl).
Defined.

(** [email_finder(domain="example.com", full_name="")]. *)
Lemma email_finder_validation_at_sample :
  email_finder_pre (Some "example.com") None None None (Some "") = false
  ∧ (truthy_str (Some "example.com") || truthy_str None = false
     ∧ rejected "Either domain or company must be provided" []
         (email_finder (answer_with response_401) sample_client
            (Some "example.com") None None None (Some "") None [])
     ∨ (truthy_str None && truthy_str None) || truthy_str (Some "") = false
       ∧ rejected
           "Either first_name and last_name, or full_name must be provided"
           []
           (email_finder (answer_with response_401) sample_client
              (Some "example.com") None None None (Some "") None [])).
Proof.
  split; [reflexivity|].
  destruct (email_finder_validation (answer_with response_401)
              sample_client []) as (_ & Hfail & _).
  exact (Hfail (Some "example.com") None None None (Some "") None eq_refl).
Defined.

(** [domain_search(domain="example.com", limit=0, type_filter="")]. *)
Lemma query_holds_key_and_present_arguments_at_sample :
  domain_search_pre (Some "example.com") None = true
  ∧ sends_query
      [("api_key", Some (PStr (api_key sample_client)));
       ("domain", present_str (Some "example.com"));
       ("company", present_str None);
       ("limit", present_int (Some 0));
       ("offset", present_int None);
       ("type", present_str (Some ""));
       ("seniority", present_str None);
       ("department", present_str None);
       ("required_field", present_str None)]
      []
      (domain_search (answer_with response_401) sample_client
         (Some "example.com") None (Some 0) None (Some "") None None None []).
Proof.
  split; [reflexivity|].
  destruct (query_holds_key_and_present_arguments
              (answer_with response_401) sample_client []) as [Hsearch _].
  exact (Hsearch (Some "example.com") None (Some 0) None (Some "") None None
           None eq_refl).
Defined.

(** A refused connection during [email_verifier("test@example.com")]. *)
Lemma unclassified_faults_become_generic_errors_at_sample :
  email_verifier_pre "test@example.com" = true
  ∧ issubclass ConnectionError RequestException = true
  ∧ fst (email_verifier connection_refused sample_client "test@example.com"
           [])
    = Raise {| exn_class := HunterAPIError;
               message := Some (JStr "Request failed: Network error");
               status_code := Some 0 |}.
Proof.
  split; [reflexivity|]. split; [reflexivity|].
  destruct (unclassified_faults_become_generic_errors connection_refused
              sample_client []) as (_ & _ & _ & _ & Hverify).
  destruct (Hverify "test@example.com" eq_refl) as (req & _ & Hfault & _).
  exact (proj1 (Hfault ConnectionError "Network error" eq_refl eq_refl)).
Defined.

(** The smallest email finder response. *)
Lemma defaults_of_required_only_at_sample :
  construct EmailFinderResponse_validate
    (JObj [("data",
            JObj [("first_name", JStr "John"); ("last_name", JStr "Doe");
                  ("email", JStr "john.doe@example.com");
                  ("score", JInt 95); ("domain", JStr "example.com");
                  ("accept_all", JBool false)]);
           ("meta", JObj [])])
  = Ok (EmailFinderResponse.mk
          (EmailFinderData.mk "John" "Doe" "john.doe@example.com" 95
             "example.com" false None None None None None [] None)
          (Meta.mk None None None None)).
Proof.
  destruct (defaults_of_required_only (H := strict)) as (_ & Hfinder & _).
  eapply Hfinder; reflexivity.
Defined.

(** The record read from [email_out_of_range] carries the 150 it was given. *)
Lemma confidence_and_score_are_unconstrained_integers_at_sample :
  Email_validate email_out_of_range
  = Some (Email.mk "test@example.com" "personal" 150 [] None None None None
            None None None None None)
  ∧ ∃ v, dict_get "confidence" email_out_of_range = Some v
         ∧ as_int v = Some 150.
Proof.
  split; [reflexivity|].
  destruct (confidence_and_score_are_unconstrained_integers (H := strict))
    as [Hemail _].
  exact (Hemail email_out_of_range _ eq_refl).
Defined.

(** [email_finder(company="Stripe", full_name="Patrick Collison",
    last_name="", max_duration=0)]. *)
Lemma zero_is_sent_and_empty_string_is_not_at_sample :
  email_finder_pre None (Some "Stripe") None (Some "")
    (Some "Patrick Collison") = true
  ∧ ∃ req,
      snd (email_finder (answer_with response_401) sample_client None
             (Some "Stripe") None (Some "") (Some "Patrick Collison")
             (Some 0) [])
      = [req]
      ∧ params req !! "max_duration" = Some (PInt 0)
      ∧ params req !! "last_name" = None.
Proof.
  split; [reflexivity|].
  destruct (zero_is_sent_and_empty_string_is_not (answer_with response_401)
              sample_client []) as (_ & Hfinder & _).
  destruct (Hfinder None (Some "Stripe") None (Some "")
              (Some "Patrick Collison") (Some 0) eq_refl)
    as (req & Hlog & Hzero & _ & _ & _ & Hlast & _).
  exists req. split; [exact Hlog|].
  split; [exact (Hzero eq_refl)|exact (Hlast eq_refl)].
Defined.

(** [email_verifier("")] is not for an [except HunterAPIError] clause. *)
Lemma error_hierarchy_at_sample :
  email_verifier_pre "" = false
  ∧ caught_by HunterAPIError
      (fst (email_verifier (answer_with response_401) sample_client "" []))
    = false.
Proof.
  split; [reflexivity|].
  destruct (error_hierarchy (answer_with response_401) sample_client [])
    as (_ & _ & _ & _ & _ & _ & _ & _ & Hverify).
  exact (Hverify "" eq_refl).
Defined.


(* ===================================================================== *)
(** * Beyond the error paths: what a call does with its answer *)
(* ===================================================================== *)

Lemma _process_response_decoded (r : response.t) (v : json) :
  response.status_code r < 400 →
  response.body r = inr v →
  _process_response r = Ok v.
Proof.
  intros Hs Hb. rewrite (_process_response_below_400 _ Hs).
  unfold _parse_json_response, response_json. by rewrite Hb.
Qed.

Lemma body_decides_intro {A} (session_request : request → outcome)
    (log : list request) (req : request) (build : json → result A) :
  body_decides build session_request log
    (classify (session_request req) ≫= build, (log ++ [req])%list).
Proof.
  exists req. split; [done|]. intros r v Hr Hs Hb. cbn [fst].
  rewrite Hr. cbn [classify]. by rewrite (_process_response_decoded _ _ Hs Hb).
Qed.


Lemma construct_not_object {A} (validate : list (string * json) → option A)
    (v : json) :
  is_object v = false →
  construct validate v = Raise (builtin_exn TypeError).
Proof. by destruct v. Qed.

Lemma required_missing {A} (conv : json → option A) (k : string)
    (d : list (string * json)) :
  dict_get k d = None → required conv k d = None.
Proof. intros Hk. unfold required. by rewrite Hk. Qed.

Lemma required_not_object {A} (build : list (string * json) → option A)
    (k : string) (d : list (string * json)) (v : json) :
  dict_get k d = Some v → is_object v = false →
  required (model build) k d = None.
Proof. intros Hk Hv. unfold required. rewrite Hk. by destruct v. Qed.

Section responses_unusable.
Context `{Scalars}.

Lemma response_fields_unusable {A B}
    (validate : list (string * json) → option A) (mk : A → Meta.t → B)
    (d : list (string * json)) :
  unusable d →
  (data ← required (model validate) "data" d;
   meta ← required (model Meta_validate) "meta" d;
   Some (mk data meta)) = None.
Proof.
  intros [Hd|[Hm|[(x & Hd & Hx)|(x & Hm & Hx)]]].
  - by rewrite (required_missing _ _ _ Hd).
  - rewrite (required_missing _ _ _ Hm).
    by destruct (required (model validate) "data" d).
  - by rewrite (required_not_object _ _ _ _ Hd Hx).
  - rewrite (required_not_object _ _ _ _ Hm Hx).
    by destruct (required (model validate) "data" d).
Qed.

Lemma payload_faults_intro {A B} (session_request : request → outcome)
    (log : list request) (req : request)
    (validate : list (string * json) → option A) (mk : A → Meta.t → B) :
  payload_faults session_request log
    (classify (session_request req)
       ≫= construct (λ d, data ← required (model validate) "data" d;
                          meta ← required (model Meta_validate) "meta" d;
                          Some (mk data meta)),
     (log ++ [req])%list).
Proof.
  exists req. split; [done|]. intros r v Hr Hs Hb. cbn [fst].
  rewrite Hr. cbn [classify]. rewrite (_process_response_decoded _ _ Hs Hb).
  split.
  - intros Hv. by apply construct_not_object.
  - intros d -> Hd. cbn [mbind result_bind construct].
    by rewrite (response_fields_unusable _ _ _ Hd).
Qed.

End responses_unusable.

Section calls.
Context `{Scalars}.
Variable session_request : request → outcome.
Variable self : HunterClient.
Variable log : list request.

(** X1.  An answer below 400 whose body decodes is handed to the response
    model as it is: the call returns exactly what the model makes of the
    decoded value, whatever the status (200, 204, 302, ...) and without
    looking for an [errors] key. *)
Theorem decoded_body_reaches_the_model :
  (∀ domain company limit offset type_filter seniority department
     required_field,
     domain_search_pre domain company = true →
     body_decides (construct DomainSearchResponse_validate) session_request
       log
       (domain_search session_request self domain company limit offset
          type_filter seniority department required_field log))
  ∧ (∀ domain company first_name last_name full_name max_duration,
       email_finder_pre domain company first_name last_name full_name
       = true →
       body_decides (construct EmailFinderResponse_validate) session_request
         log
         (email_finder session_request self domain company first_name
            last_name full_name max_duration log))
  ∧ (∀ email,
       email_verifier_pre email = true →
       body_decides (construct EmailVerificationResponse_validate)
         session_request log
         (email_verifier session_request self email log)).
Proof.
  split; [|split].
  - intros d c l o t s dep rf Hpre.
    destruct (domain_search_run session_request self d c l o t s dep rf
                log Hpre) as (req & -> & _).
    apply body_decides_intro.
  - intros d c f l fn md Hpre.
    destruct (email_finder_run session_request self d c f l fn md log
                Hpre) as (req & -> & _).
    apply body_decides_intro.
  - intros e Hpre.
    destruct (email_verifier_run session_request self e log Hpre)
      as (req & -> & _).
    apply body_decides_intro.
Qed.

(** X2.  An answer below 400 whose body decodes to something that is no
    object (an array, a text, a number, [null]) makes the call raise a
    [TypeError]; one that decodes to an object without a usable [data] or
    [meta] makes it raise pydantic's [ValidationError].  Neither is a
    [HunterAPIError]; the second is a [ValueError], like the errors of
    argument validation. *)
Theorem unusable_payload_raises_outside_the_hierarchy :
  issubclass TypeError HunterAPIError = false
  ∧ issubclass ValidationError HunterAPIError = false
  ∧ issubclass ValidationError ValueError = true
  ∧ (∀ domain company limit offset type_filter seniority department
       required_field,
       domain_search_pre domain company = true →
       payload_faults session_request log
         (domain_search session_request self domain company limit offset
            type_filter seniority department required_field log))
  ∧ (∀ domain company first_name last_name full_name max_duration,
       email_finder_pre domain company first_name last_name full_name
       = true →
       payload_faults session_request log
         (email_finder session_request self domain company first_name
            last_name full_name max_duration log))
  ∧ (∀ email,
       email_verifier_pre email = true →
       payload_faults session_request log
         (email_verifier session_request self email log)).
Proof.
  split_and!; try reflexivity.
  - intros d c l o t s dep rf Hpre.
    destruct (domain_search_run session_request self d c l o t s dep rf
                log Hpre) as (req & -> & _).
    apply (payload_faults_intro session_request log req
             DomainSearchData_validate DomainSearchResponse.mk).
  - intros d c f l fn md Hpre.
    destruct (email_finder_run session_request self d c f l fn md log
                Hpre) as (req & -> & _).
    apply (payload_faults_intro session_request log req
             EmailFinderData_validate EmailFinderResponse.mk).
  - intros e Hpre.
    destruct (email_verifier_run session_request self e log Hpre)
      as (req & -> & _).
    apply (payload_faults_intro session_request log req
             EmailVerificationData_validate EmailVerificationResponse.mk).
Qed.


End calls.

(* ===================================================================== *)
(** * Which exceptions leave a call *)
(* ===================================================================== *)

(** A body that decodes to something other than an object: [null], a
    boolean or a number cannot be searched for ["errors"]; a text or an array
    can, and subscripting it with ["errors"] is the [TypeError]. *)
Lemma _extract_error_message_not_object (r : response.t) (v : json) :
  response.body r = inr v →
  is_object v = false →
  _extract_error_message r
  = match v with
    | JStr s =>
        if str_in "errors" s then Raise (builtin_exn TypeError)
        else Ok (JStr "API request failed")
    | JArr l =>
        if existsb
             (λ x, match x with
                   | JStr s => String.eqb "errors" s
                   | _ => false
                   end) l
        then Raise (builtin_exn TypeError)
        else Ok (JStr "API request failed")
    | _ => Raise (builtin_exn TypeError)
    end.
Proof.
  intros Hb Hv. unfold _extract_error_message, response_json. rewrite Hb.
  destruct v as [| | | |s|l|d]; try done.
  - cbn [mbind result_bind py_contains]. by destruct (str_in "errors" s).
  - cbn [mbind result_bind py_contains]. by destruct (existsb _ l).
Qed.






Section envelope.
Context `{Scalars}.
Variable session_request : request → outcome.
Variable self : HunterClient.
Variable log : list request.



End envelope.

(* ===================================================================== *)
(** * The generic error, seen from a call *)
(* ===================================================================== *)

Lemma first_details_reported_intro {A} (session_request : request → outcome)
    (log : list request) (req : request) (build : json → result A) :
  first_details_reported session_request log
    (classify (session_request req) ≫= build, (log ++ [req])%list).
Proof.
  exists req. split; [done|]. intros r d e rest Hr Hs H401 H429 Hb He.
  cbn [fst]. rewrite Hr. cbn [classify].
  by rewrite (generic_error_from_documented_body r d e rest).
Qed.

Lemma fallback_reported_intro {A} (session_request : request → outcome)
    (log : list request) (req : request) (build : json → result A) :
  fallback_reported session_request log
    (classify (session_request req) ≫= build, (log ++ [req])%list).
Proof.
  exists req. split; [done|]. intros r Hr Hs H401 H429 Hb.
  cbn [fst]. rewrite Hr. cbn [classify].
  by rewrite (generic_error_fallback r).
Qed.

Lemma non_object_error_body_intro {A} (session_request : request → outcome)
    (log : list request) (req : request) (build : json → result A) :
  non_object_error_body session_request log
    (classify (session_request req) ≫= build, (log ++ [req])%list).
Proof.
  exists req. split; [done|]. intros r v Hr Hs H401 H429 Hb Hv.
  cbn [fst]. rewrite Hr. cbn [classify].
  rewrite (_process_response_other_error _ Hs H401 H429).
  rewrite (_extract_error_message_not_object _ _ Hb Hv).
  destruct v as [| | | |s|l|d]; try done.
  - cbn [error_of_non_object]. by destruct (str_in "errors" s).
  - cbn [error_of_non_object]. by destruct (existsb _ l).
Qed.

Ltac by_run session_request self log intro_lemma :=
  split; [|split];
  [ intros d c l o t s dep rf Hpre;
    destruct (domain_search_run session_request self d c l o t s dep rf
                log Hpre) as (req & -> & _)
  | intros d c f l fn md Hpre;
    destruct (email_finder_run session_request self d c f l fn md log
                Hpre) as (req & -> & _)
  | intros e Hpre;
    destruct (email_verifier_run session_request self e log Hpre)
      as (req & -> & _) ];
  apply intro_lemma.

Section generic_errors.
Context `{Scalars}.
Variable session_request : request → outcome.
Variable self : HunterClient.
Variable log : list request.

(** X6.  For an answer with a status of 400 or more other than 401 and 429
    whose body is an object with a list of error objects, each operation
    raises a plain [HunterAPIError] with that status whose message is the
    [details] of the first error as it stands (a text, but also a number or
    [null] if that is what the body holds), the later errors being ignored;
    when the first error has no [details] the message is "API request
    failed". *)
Theorem details_of_the_first_error_are_the_message :
  (∀ domain company limit offset type_filter seniority department
     required_field,
     domain_search_pre domain company = true →
     first_details_reported session_request log
       (domain_search session_request self domain company limit offset
          type_filter seniority department required_field log))
  ∧ (∀ domain company first_name last_name full_name max_duration,
       email_finder_pre domain company first_name last_name full_name
       = true →
       first_details_reported session_request log
         (email_finder session_request self domain company first_name
            last_name full_name max_duration log))
  ∧ (∀ email,
       email_verifier_pre email = true →
       first_details_reported session_request log
         (email_verifier session_request self email log)).
Proof. by_run session_request self log @first_details_reported_intro. Qed.

(** X7.  For an answer with a status of 400 or more other than 401 and 429
    whose body does not decode, or decodes to an object whose [errors]
    entry is missing, is an empty list or is no list at all, each operation
    raises a plain [HunterAPIError] with that status and the message "API
    request failed". *)
Theorem error_without_error_list_gets_the_fallback :
  (∀ domain company limit offset type_filter seniority department
     required_field,
     domain_search_pre domain company = true →
     fallback_reported session_request log
       (domain_search session_request self domain company limit offset
          type_filter seniority department required_field log))
  ∧ (∀ domain company first_name last_name full_name max_duration,
       email_finder_pre domain company first_name last_name full_name
       = true →
       fallback_reported session_request log
         (email_finder session_request self domain company first_name
            last_name full_name max_duration log))
  ∧ (∀ email,
       email_verifier_pre email = true →
       fallback_reported session_request log
         (email_verifier session_request self email log)).
Proof. by_run session_request self log @fallback_reported_intro. Qed.

(** X8.  For an answer with a status of 400 or more other than 401 and 429
    whose body decodes to something that is no object, the outcome depends
    on the value: [null], a boolean or a number, a text that contains
    "errors" and an array that has the text "errors" among its items end in
    a [TypeError] that leaves the operation; any other text or array gives
    the plain [HunterAPIError] with the fallback message. *)
Theorem error_body_that_is_no_object :
  (∀ domain company limit offset type_filter seniority department
     required_field,
     domain_search_pre domain company = true →
     non_object_error_body session_request log
       (domain_search session_request self domain company limit offset
          type_filter seniority department required_field log))
  ∧ (∀ domain company first_name last_name full_name max_duration,
       email_finder_pre domain company first_name last_name full_name
       = true →
       non_object_error_body session_request log
         (email_finder session_request self domain company first_name
            last_name full_name max_duration log))
  ∧ (∀ email,
       email_verifier_pre email = true →
       non_object_error_body session_request log
         (email_verifier session_request self email log)).
Proof. by_run session_request self log @non_object_error_body_intro. Qed.

End generic_errors.

(* ===================================================================== *)
(** * The client object and the request it builds *)
(* ===================================================================== *)

Lemma HunterClient_init_Ok (key : string) (tmo : option Z)
    (self : HunterClient) :
  HunterClient_init key tmo = Ok self →
  key ≠ ""
  ∧ self = {| api_key := key; timeout := default 30 tmo;
              base_url := "https://api.hunter.io/v2/" |}.
Proof.
  unfold HunterClient_init. destruct key as [|a key]; [done|].
  cbn [truthy String.eqb negb]. by intros [= <-].
Qed.

Section building.
Context `{Scalars}.
Variable session_request : request → outcome.
Variable log : list request.

(** X9.  The constructor refuses the empty key with [ValueError("API key is
    required")] whatever the timeout.  A client it does build has a
    non-empty key, and every request of that client goes to
    [https://api.hunter.io/v2/] followed by [domain-search], [email-finder]
    or [email-verifier], carries the timeout given to the constructor, 30
    when none was given, and carries the key under [api_key]. *)
Theorem constructed_client_routes_requests (key : string) (tmo : option Z) :
  HunterClient_init "" tmo = Raise (ValueError_init "API key is required")
  ∧ ∀ self, HunterClient_init key tmo = Ok self →
      key ≠ ""
      ∧ (∀ domain company limit offset type_filter seniority department
           required_field,
           domain_search_pre domain company = true →
           routed_to "domain-search" (default 30 tmo) key log
             (domain_search session_request self domain company limit
                offset type_filter seniority department required_field log))
      ∧ (∀ domain company first_name last_name full_name max_duration,
           email_finder_pre domain company first_name last_name full_name
           = true →
           routed_to "email-finder" (default 30 tmo) key log
             (email_finder session_request self domain company first_name
                last_name full_name max_duration log))
      ∧ (∀ email,
           email_verifier_pre email = true →
           routed_to "email-verifier" (default 30 tmo) key log
             (email_verifier session_request self email log)).
Proof.
  split; [reflexivity|]. intros self Hinit.
  destruct (HunterClient_init_Ok _ _ _ Hinit) as [Hkey Hself].
  split; [exact Hkey|]. split; [|split].
  - intros d c l o t s dep rf Hpre.
    destruct (domain_search_run session_request self d c l o t s dep rf
                log Hpre) as (req & -> & _ & Hurl & Htmo & Hq).
    exists req. rewrite Hurl, Htmo, Hq, Hself. by split_and!.
  - intros d c f l fn md Hpre.
    destruct (email_finder_run session_request self d c f l fn md log
                Hpre) as (req & -> & _ & Hurl & Htmo & Hq).
    exists req. rewrite Hurl, Htmo, Hq, Hself. by split_and!.
  - intros e Hpre.
    destruct (email_verifier_run session_request self e log Hpre)
      as (req & -> & _ & Hurl & Htmo & Hq).
    exists req. rewrite Hurl, Htmo, Hq, Hself. by split_and!.
Qed.


End building.

(* ===================================================================== *)
(** * What validation reads, and what makes it fail *)
(* ===================================================================== *)

Section reading_fields.
Context {A B : Type}.
Implicit Types (conv : json → option A) (d : list (string * json)).

Lemma bind_agree (m m' : option A) (f f' : A → option B) :
  m = m' → (∀ a, f a = f' a) → (m ≫= f) = (m' ≫= f').
Proof. intros -> Hf. destruct m'; [apply Hf|done]. Qed.

Lemma required_agree conv (k : string) d d' :
  dict_get k d = dict_get k d' → required conv k d = required conv k d'.
Proof. unfold required. by intros ->. Qed.

Lemma optional_agree conv (k : string) d d' :
  dict_get k d = dict_get k d' → optional conv k d = optional conv k d'.
Proof. unfold optional. by intros ->. Qed.

Lemma list_of_agree conv (k : string) d d' :
  dict_get k d = dict_get k d' → list_of conv k d = list_of conv k d'.
Proof. unfold list_of. by intros ->. Qed.

Lemma list_of_Some conv (k : string) d (xs : list A) :
  list_of conv k d = Some xs →
  match dict_get k d with
  | None => xs = []
  | Some (JArr l) => Forall2 (λ j x, conv j = Some x) l xs
  | Some _ => False
  end.
Proof.
  unfold list_of. destruct (dict_get k d) as [[| | | | |l|]|]; try done.
  - by intros ?%mapM_Some.
  - by intros [= <-].
Qed.

Lemma optional_absent_or_null conv (k : string) d
    (f : option A → option B) :
  dict_get k d = None ∨ dict_get k d = Some JNull →
  (optional conv k d ≫= f) = f None.
Proof. unfold optional. by intros [->| ->]. Qed.

End reading_fields.

Lemma absent_or_null_get (names : list string) (d : list (string * json))
    (k : string) :
  absent_or_null names d = true → In k names →
  dict_get k d = None ∨ dict_get k d = Some JNull.
Proof.
  unfold absent_or_null. rewrite forallb_forall. intros Hall Hin.
  specialize (Hall k Hin). destruct (dict_get k d) as [[]|]; auto; done.
Qed.

Ltac in_names := cbn; repeat first [left; reflexivity | right].

Ltac same_fields Hag :=
  repeat (apply bind_agree;
          [ first [ apply required_agree | apply optional_agree
                  | apply list_of_agree ];
            apply Hag; in_names
          | intros ? ]);
  reflexivity.

Ltac fails_when_missing Hk :=
  repeat lazymatch goal with
  | |- (required ?c ?k ?d ≫= _) = None =>
      first
        [ rewrite (required_missing c k d Hk); reflexivity
        | destruct (required c k d);
          [cbn [mbind option_bind]|reflexivity] ]
  end.

Ltac each_name Hin tac :=
  cbn in Hin;
  repeat (destruct Hin as [<-|Hin]; [tac|]);
  destruct Hin.

Ltac null_by_null Hnull :=
  repeat first
    [ erewrite required_Some;
      [ | eassumption
        | first [ apply as_str_exact | apply as_int_exact
                | apply as_bool_exact ] ]
    | rewrite optional_absent_or_null
        by (apply (absent_or_null_get _ _ _ Hnull); in_names)
    | rewrite list_of_None by assumption ];
  reflexivity.

Section schema_reading.
Context `{Scalars}.

(** X11.  Validation of a model reads the dict only under the names of the
    model's fields: two dicts that agree under those names validate alike,
    so keys the model does not declare are ignored and the order of the keys
    is of no account.  For a response this holds of the whole call of the
    model class. *)
Theorem validation_reads_the_declared_fields_only :
  (∀ d d', agree_on EmailSource_fields d d' →
     EmailSource_validate d = EmailSource_validate d')
  ∧ (∀ d d', agree_on EmailVerification_fields d d' →
       EmailVerification_validate d = EmailVerification_validate d')
  ∧ (∀ d d', agree_on Email_fields d d' →
       Email_validate d = Email_validate d')
  ∧ (∀ d d', agree_on DomainSearchData_fields d d' →
       DomainSearchData_validate d = DomainSearchData_validate d')
  ∧ (∀ d d', agree_on MetaParams_fields d d' →
       MetaParams_validate d = MetaParams_validate d')
  ∧ (∀ d d', agree_on Meta_fields d d' →
       Meta_validate d = Meta_validate d')
  ∧ (∀ d d', agree_on EmailFinderData_fields d d' →
       EmailFinderData_validate d = EmailFinderData_validate d')
  ∧ (∀ d d', agree_on EmailVerificationData_fields d d' →
       EmailVerificationData_validate d = EmailVerificationData_validate d')
  ∧ (∀ d d', agree_on Response_fields d d' →
       construct DomainSearchResponse_validate (JObj d)
       = construct DomainSearchResponse_validate (JObj d')
       ∧ construct EmailFinderResponse_validate (JObj d)
         = construct EmailFinderResponse_validate (JObj d')
       ∧ construct EmailVerificationResponse_validate (JObj d)
         = construct EmailVerificationResponse_validate (JObj d')).
Proof.
  split_and!; intros d d' Hag.
  - unfold EmailSource_validate. same_fields Hag.
  - unfold EmailVerification_validate. same_fields Hag.
  - unfold Email_validate. same_fields Hag.
  - unfold DomainSearchData_validate. same_fields Hag.
  - unfold MetaParams_validate. same_fields Hag.
  - unfold Meta_validate. same_fields Hag.
  - unfold EmailFinderData_validate. same_fields Hag.
  - unfold EmailVerificationData_validate. same_fields Hag.
  - assert (DomainSearchResponse_validate d
            = DomainSearchResponse_validate d') as Hs
      by (unfold DomainSearchResponse_validate; same_fields Hag).
    assert (EmailFinderResponse_validate d
            = EmailFinderResponse_validate d') as Hf
      by (unfold EmailFinderResponse_validate; same_fields Hag).
    assert (EmailVerificationResponse_validate d
            = EmailVerificationResponse_validate d') as Hv
      by (unfold EmailVerificationResponse_validate; same_fields Hag).
    unfold construct. by rewrite Hs, Hf, Hv.
Qed.

(** X12.  A model does not validate when a field it declares without a
    default is missing from the dict, whichever field that is and whatever
    else the dict holds. *)
Theorem missing_required_field_fails :
  (∀ d k, In k EmailSource_fields → dict_get k d = None →
     EmailSource_validate d = None)
  ∧ (∀ d k, In k Email_required → dict_get k d = None →
       Email_validate d = None)
  ∧ (∀ d k, In k DomainSearchData_required → dict_get k d = None →
       DomainSearchData_validate d = None)
  ∧ (∀ d k, In k EmailFinderData_required → dict_get k d = None →
       EmailFinderData_validate d = None)
  ∧ (∀ d k, In k EmailVerificationData_required → dict_get k d = None →
       EmailVerificationData_validate d = None)
  ∧ (∀ d k, In k Response_fields → dict_get k d = None →
       DomainSearchResponse_validate d = None
       ∧ EmailFinderResponse_validate d = None
       ∧ EmailVerificationResponse_validate d = None).
Proof.
  split_and!; intros d k Hin.
  - unfold EmailSource_validate.
    each_name Hin ltac:(intros Hk; fails_when_missing Hk).
  - unfold Email_validate.
    each_name Hin ltac:(intros Hk; fails_when_missing Hk).
  - unfold DomainSearchData_validate.
    each_name Hin ltac:(intros Hk; fails_when_missing Hk).
  - unfold EmailFinderData_validate.
    each_name Hin ltac:(intros Hk; fails_when_missing Hk).
  - unfold EmailVerificationData_validate.
    each_name Hin ltac:(intros Hk; fails_when_missing Hk).
  - unfold DomainSearchResponse_validate, EmailFinderResponse_validate,
      EmailVerificationResponse_validate.
    each_name Hin ltac:(intros Hk; split_and!; fails_when_missing Hk).
Qed.

End schema_reading.

Ltac list_field_of He :=
  repeat (apply bind_inv in He as (? & ? & He));
  injection He as <-; cbn; try split_and!;
  match goal with
  | Hl : list_of _ ?k _ = Some _ |- context [dict_get ?k _] =>
      exact (list_of_Some _ _ _ _ Hl)
  end.

Section schema_lists_and_nulls.
Context `{Scalars}.

(** X13.  A list field of a validated record mirrors the JSON array it came
    from: one entry for each item, in the same order, each the validation of
    its item, so a single item that does not validate makes the whole model
    fail; the field is empty when the key is missing, and a value that is
    no array ([null] included) does not validate. *)
Theorem list_fields_mirror_their_arrays :
  (∀ d r, DomainSearchData_validate d = Some r →
     match dict_get "emails" d with
     | None => DomainSearchData.emails r = []
     | Some (JArr l) =>
         Forall2 (λ j e, model Email_validate j = Some e) l
           (DomainSearchData.emails r)
     | Some _ => False
     end
     ∧ match dict_get "technologies" d with
       | None => DomainSearchData.technologies r = []
       | Some (JArr l) =>
           Forall2 (λ j s, as_str j = Some s) l
             (DomainSearchData.technologies r)
       | Some _ => False
       end
     ∧ match dict_get "linked_domains" d with
       | None => DomainSearchData.linked_domains r = []
       | Some (JArr l) =>
           Forall2 (λ j s, as_str j = Some s) l
             (DomainSearchData.linked_domains r)
       | Some _ => False
       end)
  ∧ (∀ d r, Email_validate d = Some r →
       match dict_get "sources" d with
       | None => Email.sources r = []
       | Some (JArr l) =>
           Forall2 (λ j s, model EmailSource_validate j = Some s) l
             (Email.sources r)
       | Some _ => False
       end)
  ∧ (∀ d r, EmailFinderData_validate d = Some r →
       match dict_get "sources" d with
       | None => EmailFinderData.sources r = []
       | Some (JArr l) =>
           Forall2 (λ j s, model EmailSource_validate j = Some s) l
             (EmailFinderData.sources r)
       | Some _ => False
       end)
  ∧ (∀ d r, EmailVerificationData_validate d = Some r →
       match dict_get "sources" d with
       | None => EmailVerificationData.sources r = []
       | Some (JArr l) =>
           Forall2 (λ j s, model EmailSource_validate j = Some s) l
             (EmailVerificationData.sources r)
       | Some _ => False
       end).
Proof.
  split_and!; intros d r He.
  - unfold DomainSearchData_validate in He. list_field_of He.
  - unfold Email_validate in He. list_field_of He.
  - unfold EmailFinderData_validate in He. list_field_of He.
  - unfold EmailVerificationData_validate in He. list_field_of He.
Qed.

(** X14.  For an [Optional] field an explicit [null] counts as a missing
    key: a dict whose optional keys are each missing or [null] validates to
    the record with [None] in all of them. *)
Theorem null_is_a_missing_optional :
  (∀ d value type confidence,
     dict_get "value" d = Some (JStr value) →
     dict_get "type" d = Some (JStr type) →
     dict_get "confidence" d = Some (JInt confidence) →
     dict_get "sources" d = None →
     absent_or_null Email_optional d = true →
     Email_validate d
     = Some (Email.mk value type confidence [] None None None None None
               None None None None))
  ∧ (∀ d, absent_or_null EmailVerification_fields d = true →
       EmailVerification_validate d = Some (EmailVerification.mk None None))
  ∧ (∀ d, absent_or_null MetaParams_fields d = true →
       MetaParams_validate d
       = Some (MetaParams.mk None None None None None None None None None))
  ∧ (∀ d, absent_or_null Meta_fields d = true →
       Meta_validate d = Some (Meta.mk None None None None)).
Proof.
  split_and!.
  - intros d v t c Hv Ht Hc Hs Hnull. unfold Email_validate.
    null_by_null Hnull.
  - intros d Hnull. unfold EmailVerification_validate. null_by_null Hnull.
  - intros d Hnull. unfold MetaParams_validate. null_by_null Hnull.
  - intros d Hnull. unfold Meta_validate. null_by_null Hnull.
Qed.

End schema_lists_and_nulls.

(* ===================================================================== *)
(** * The further behaviour at sample inputs *)
(* ===================================================================== *)

(** The answer of the tests, read by [domain_search(domain="example.com")]. *)
Lemma decoded_body_reaches_the_model_at_sample :
  domain_search_pre (Some "example.com") None = true
  ∧ fst (domain_search (answer_with response_200) sample_client
           (Some "example.com") None None None None None None None [])
    = Ok (DomainSearchResponse.mk
            (DomainSearchData.mk "example.com" false false true
               None None None None None None None None None []
               None None None None None None None [] [])
            (Meta.mk (Some 0) (Some 10) (Some 0) None)).
Proof.
  split; [reflexivity|].
  destruct (decoded_body_reaches_the_model (answer_with response_200)
              sample_client []) as [Hsearch _].
  destruct (Hsearch (Some "example.com") None None None None None None None
              eq_refl) as (req & _ & Hbody).
  exact (eq_trans (Hbody response_200 _ eq_refl eq_refl eq_refl) eq_refl).
Defined.

(** A 200 with the body [[]], read by [email_verifier]. *)
Lemma unusable_payload_raises_outside_the_hierarchy_at_sample :
  email_verifier_pre "test@example.com" = true
  ∧ fst (email_verifier (answer_with response_array) sample_client
           "test@example.com" [])
    = Raise (builtin_exn TypeError).
Proof.
  split; [reflexivity|].
  destruct (unusable_payload_raises_outside_the_hierarchy
              (answer_with response_array) sample_client [])
    as (_ & _ & _ & _ & _ & Hverify).
  destruct (Hverify "test@example.com" eq_refl) as (req & _ & Hpayload).
  destruct (Hpayload response_array _ eq_refl eq_refl eq_refl) as [Harr _].
  exact (Harr eq_refl).
Defined.



(** The 400 of the tests, read by [email_finder]. *)
Lemma details_of_the_first_error_are_the_message_at_sample :
  email_finder_pre (Some "example.com") None None None (Some "John Doe")
  = true
  ∧ fst (email_finder (answer_with response_400) sample_client
           (Some "example.com") None None None (Some "John Doe") None [])
    = Raise (generic_error 400 (JStr "Invalid domain parameter")).
Proof.
  split; [reflexivity|].
  destruct (details_of_the_first_error_are_the_message
              (answer_with response_400) sample_client [])
    as (_ & Hfinder & _).
  destruct (Hfinder (Some "example.com") None None None (Some "John Doe")
              None eq_refl) as (req & _ & Hdetails).
  refine (Hdetails response_400 _ _ _ eq_refl _ _ _ eq_refl eq_refl);
    simpl; lia.
Defined.

(** A 503 with a page that is no JSON, read by [domain_search]. *)
Lemma error_without_error_list_gets_the_fallback_at_sample :
  domain_search_pre None (Some "Stripe") = true
  ∧ fst (domain_search (answer_with response_503_page) sample_client None
           (Some "Stripe") None None None None None None [])
    = Raise (generic_error 503 (JStr "API request failed")).
Proof.
  split; [reflexivity|].
  destruct (error_without_error_list_gets_the_fallback
              (answer_with response_503_page) sample_client [])
    as [Hsearch _].
  destruct (Hsearch None (Some "Stripe") None None None None None None
              eq_refl) as (req & _ & Hfallback).
  refine (Hfallback response_503_page eq_refl _ _ _ _);
    [simpl; lia|simpl; lia|simpl; lia|].
  left. eexists. reflexivity.
Defined.

(** A 500 with the body [null], read by [domain_search]. *)
Lemma error_body_that_is_no_object_at_sample :
  domain_search_pre (Some "example.com") None = true
  ∧ fst (domain_search (answer_with response_500_null) sample_client
           (Some "example.com") None None None None None None None [])
    = Raise (builtin_exn TypeError).
Proof.
  split; [reflexivity|].
  destruct (error_body_that_is_no_object (answer_with response_500_null)
              sample_client []) as [Hsearch _].
  destruct (Hsearch (Some "example.com") None None None None None None None
              eq_refl) as (req & _ & Hbody).
  refine (Hbody response_500_null JNull eq_refl _ _ _ eq_refl eq_refl);
    simpl; lia.
Defined.

(** [HunterClient("test-api-key")] and its [email_verifier]. *)
Lemma constructed_client_routes_requests_at_sample :
  HunterClient_init "test-api-key" None = Ok sample_client
  ∧ email_verifier_pre "test@example.com" = true
  ∧ routed_to "email-verifier" 30 "test-api-key" []
      (email_verifier (answer_with response_401) sample_client
         "test@example.com" []).
Proof.
  split; [reflexivity|]. split; [reflexivity|].
  destruct (constructed_client_routes_requests (answer_with response_401) []
              "test-api-key" None) as [_ Hbuilt].
  destruct (Hbuilt sample_client eq_refl) as (_ & _ & _ & Hverify).
  exact (Hverify "test@example.com" eq_refl).
Defined.


(** Shuffled keys and an undeclared key change nothing. *)
Lemma validation_reads_the_declared_fields_only_at_sample :
  Email_validate (H := strict) email_shuffled
  = Email_validate (H := strict) email_minimal.
Proof.
  destruct (validation_reads_the_declared_fields_only (H := strict))
    as (_ & _ & Hemail & _).
  apply Hemail. intros k Hin. cbn in Hin.
  repeat (destruct Hin as [<-|Hin]; [reflexivity|]). destruct Hin.
Defined.

(** An email without its confidence. *)
Lemma missing_required_field_fails_at_sample :
  dict_get "confidence"
    [("value", JStr "test@example.com"); ("type", JStr "personal")] = None
  ∧ Email_validate (H := strict)
      [("value", JStr "test@example.com"); ("type", JStr "personal")]
    = None.
Proof.
  split; [reflexivity|].
  destruct (missing_required_field_fails (H := strict))
    as (_ & Hemail & _).
  apply (Hemail _ "confidence"); [in_names|reflexivity].
Defined.

(** One item in the array, one email in the record. *)
Lemma list_fields_mirror_their_arrays_at_sample :
  ∃ r, DomainSearchData_validate (H := strict) data_with_one_email = Some r
       ∧ length (DomainSearchData.emails r) = 1%nat.
Proof.
  eexists. split; [reflexivity|].
  destruct (list_fields_mirror_their_arrays (H := strict)) as [Hdata _].
  destruct (Hdata data_with_one_email _ eq_refl) as [Hemails _].
  cbn in Hemails. exact (eq_sym (Forall2_length _ _ _ Hemails)).
Defined.

(** The email with [null]s is the minimal email. *)
Lemma null_is_a_missing_optional_at_sample :
  absent_or_null Email_optional email_with_nulls = true
  ∧ Email_validate (H := strict) email_with_nulls
    = Some (Email.mk "test@example.com" "personal" 95 [] None None None None
              None None None None None).
Proof.
  split; [reflexivity|].
  destruct (null_is_a_missing_optional (H := strict)) as [Hemail _].
  apply Hemail; reflexivity.
Defined.
